(** * getdata_alta: archive path resolution and transfer orchestration

    A shallow embedding of [getdata_alta.py] (the ALTA data transfer
    script of the Apertif pipeline) and the properties of its range
    parser [parse_list], its path resolver [get_alta_dir] and its
    transfer loop [getdata_alta].

    Python values are modelled directly, with the meaning Python 3
    gives them: [str] as [string] (ASCII text, compared code point by
    code point), [int] as [Z], exceptions as a [result] type, and the
    calls to external programs and to the file system as [action]s
    performed in order and answered by an environment.  Logging and
    timing are left out, and so is the command-line block of lines
    231-274, which runs the doctests and then hands [parse_list] of its
    two range arguments, the date as text and the directories ["."] to
    [getdata_alta]. *)

From Stdlib Require Import ZArith List String Ascii Bool Lia Decimal DecimalString DecimalZ DecimalPos.
Import ListNotations.

#[local] Open Scope string_scope.
#[local] Open Scope Z_scope.

(** ** Python primitives used by the script *)

Module Py.

(** Exceptions the script can raise or let through. *)
Inductive exn : Type :=
| EndSmallerThanBegin (spec_part : string)
    (* ValueError("In specification %s, end should not be smaller than begin") *)
| InvalidLiteral (literal : string)
    (* ValueError of int() on text that is no decimal literal *)
| UnpackError (n_values : nat)
    (* ValueError of [begin, end = ...] when the right side has not 2 items *)
| IndexError
    (* [...][0] on an empty list *)
| CalledProcessError (status : Z) (cmd : string)
    (* subprocess.check_call on a non-zero exit status *)
| OSError (errno : Z).
    (* a process that cannot be started, a file operation that fails *)

Definition is_ValueError (e : exn) : bool :=
  match e with
  | EndSmallerThanBegin _ | InvalidLiteral _ | UnpackError _ => true
  | _ => false
  end.

Inductive result (A : Type) : Type :=
| Ok (a : A)
| Raise (e : exn).
Arguments Ok {A} a.
Arguments Raise {A} e.

Definition rbind {A B} (r : result A) (k : A -> result B) : result B :=
  match r with
  | Ok a => k a
  | Raise e => Raise e
  end.

(** A value that is an [int] or a [str]: the script receives the date
    as text from the command line and as a number in its doctests. *)
Inductive pyval : Type :=
| PyInt (n : Z)
| PyStr (s : string).

(** *** Characters *)

Definition is_digit (c : ascii) : bool :=
  let n := nat_of_ascii c in (48 <=? n)%nat && (n <=? 57)%nat.

Definition digit_value (c : ascii) : Z := Z.of_nat (nat_of_ascii c) - 48.

(** [str.isspace] on ASCII, the separators of [s.split()]: tab,
    newline, vertical tab, form feed, carriage return, the four
    separators 0x1c..0x1f and the space. *)
Definition is_space (c : ascii) : bool :=
  let n := nat_of_ascii c in
  ((9 <=? n)%nat && (n <=? 13)%nat) || ((28 <=? n)%nat && (n <=? 32)%nat).

(** The white space [int()] drops around a literal: tab to carriage
    return, and the space. *)
Definition is_int_space (c : ascii) : bool :=
  let n := nat_of_ascii c in
  ((9 <=? n)%nat && (n <=? 13)%nat) || (n =? 32)%nat.

(** *** Strings *)

Definition is_empty (s : string) : bool :=
  match s with EmptyString => true | String _ _ => false end.

(** [c in s] for a one-character [c]. *)
Fixpoint contains (c : ascii) (s : string) : bool :=
  match s with
  | EmptyString => false
  | String x r => Ascii.eqb x c || contains c r
  end.

(** [s.split(sep)] for a one-character separator: never empty, and
    empty fields are kept. *)
Fixpoint split (sep : ascii) (s : string) : list string :=
  match s with
  | EmptyString => [EmptyString]
  | String c r =>
      if Ascii.eqb c sep then EmptyString :: split sep r
      else match split sep r with
           | [] => [String c EmptyString]
           | field :: fields => String c field :: fields
           end
  end.

(** [s.split()]: the fields between runs of white space. *)
Fixpoint ws_fields (s : string) : string * list string :=
  match s with
  | EmptyString => (EmptyString, [])
  | String c r =>
      let '(w, ws) := ws_fields r in
      if is_space c then (EmptyString, if is_empty w then ws else w :: ws)
      else (String c w, ws)
  end.

Definition split_ws (s : string) : list string :=
  let '(w, ws) := ws_fields s in if is_empty w then ws else w :: ws.

(** White space dropped on the left and on the right, for a given
    notion of white space. *)
Fixpoint lstrip (space : ascii -> bool) (s : string) : string :=
  match s with
  | EmptyString => EmptyString
  | String c r => if space c then lstrip space r else s
  end.

Fixpoint rstrip (space : ascii -> bool) (s : string) : string :=
  match s with
  | EmptyString => EmptyString
  | String c r =>
      let r' := rstrip space r in
      if is_empty r' && space c then EmptyString else String c r'
  end.

Definition strip (space : ascii -> bool) (s : string) : string :=
  rstrip space (lstrip space s).

Fixpoint skip (n : nat) (s : string) : string :=
  match n, s with
  | O, _ => s
  | S _, EmptyString => EmptyString
  | S k, String _ r => skip k r
  end.

Fixpoint take (n : nat) (s : string) : string :=
  match n, s with
  | O, _ => EmptyString
  | S _, EmptyString => EmptyString
  | S k, String c r => String c (take k r)
  end.

(** [s[-n:]] and [s[:-n]] for [n > 0]. *)
Definition last_chars (n : nat) (s : string) : string :=
  skip (String.length s - n) s.

Definition drop_last (n : nat) (s : string) : string :=
  take (String.length s - n) s.

Fixpoint repeat_char (c : ascii) (n : nat) : string :=
  match n with
  | O => EmptyString
  | S k => String c (repeat_char c k)
  end.

(** *** int(...) *)

(** Digits with single underscores between them, read most significant
    digit first; [after_digit] says whether the previous character was a
    digit, so that a leading, doubled or trailing underscore is refused. *)
Fixpoint int_digits (acc : Z) (after_digit : bool) (s : string) : option Z :=
  match s with
  | EmptyString => if after_digit then Some acc else None
  | String c r =>
      if is_digit c then int_digits (10 * acc + digit_value c) true r
      else if Ascii.eqb c "_" then
             if after_digit then int_digits acc false r else None
      else None
  end.

(** [int(s)] for text, base 10: surrounding white space is dropped, one
    sign is allowed, then come the digits.  (The interpreter's cap on
    the length of a literal is left out.) *)
Definition int_of_str (s : string) : result Z :=
  let body := strip is_int_space s in
  let '(negative, digits) :=
    match body with
    | String "-" r => (true, r)
    | String "+" r => (false, r)
    | _ => (false, body)
    end in
  match int_digits 0 false digits with
  | Some v => Ok (if negative then - v else v)
  | None => Raise (InvalidLiteral s)
  end.

(** *** str(...) and number formatting *)

(** [str(n)] for an int. *)
Definition str_of_int (n : Z) : string :=
  NilZero.string_of_int (Z.to_int n).

(** The digits of [|n|], zero-filled on the left to [width] characters. *)
Definition zero_filled (width : nat) (n : Z) : string :=
  let digits := str_of_int (Z.abs n) in
  repeat_char "0" (width - String.length digits) ++ digits.

(** ["{:0<width>d}".format(n)]: the sign counts in the width. *)
Definition format_0d (width : nat) (n : Z) : string :=
  if n <? 0 then String "-" (zero_filled (width - 1) n)
  else zero_filled width n.

(** ["%.<digits>d" % n]: at least [digits] digits, the sign apart. *)
Definition percent_dot_d (digits : nat) (n : Z) : string :=
  if n <? 0 then String "-" (zero_filled digits n)
  else zero_filled digits n.

Definition int_of (v : pyval) : result Z :=
  match v with
  | PyInt n => Ok n
  | PyStr s => int_of_str s
  end.

Definition str_of (v : pyval) : string :=
  match v with
  | PyInt n => str_of_int n
  | PyStr s => s
  end.

(** *** range *)

(** [range(lo, hi)] as a list. *)
Definition range (lo hi : Z) : list Z :=
  map (fun i => lo + Z.of_nat i) (seq 0 (Z.to_nat (hi - lo))).

(** *** os.path *)

(** Index just after the last ["/"] of [s] ([s.rfind("/") + 1]). *)
Fixpoint after_last_slash (s : string) : nat :=
  match s with
  | EmptyString => O
  | String c r =>
      if contains "/" r then S (after_last_slash r)
      else if Ascii.eqb c "/" then 1%nat
      else O
  end.

Fixpoint all_slashes (s : string) : bool :=
  match s with
  | EmptyString => true
  | String c r => Ascii.eqb c "/" && all_slashes r
  end.

Fixpoint rstrip_slashes (s : string) : string :=
  match s with
  | EmptyString => EmptyString
  | String c r =>
      let r' := rstrip_slashes r in
      if is_empty r' && Ascii.eqb c "/" then EmptyString else String c r'
  end.

(** [os.path.split(p)] (posixpath). *)
Definition path_split (p : string) : string * string :=
  let i := after_last_slash p in
  let head := take i p in
  let tail := skip i p in
  (if negb (is_empty head) && negb (all_slashes head)
   then rstrip_slashes head else head, tail).

(** [os.path.join(a, b)] (posixpath). *)
Definition path_join (a b : string) : string :=
  match b with
  | String "/" _ => b
  | _ =>
      if is_empty a || String.eqb (last_chars 1 a) "/" then a ++ b
      else a ++ "/" ++ b
  end.

End Py.
Import Py.

(** ** parse_list (lines 21-49) *)

(** The body of [for spec_part in spec.split(",")], with [ret_list]
    threaded through. *)
Fixpoint parse_parts (parts : list string) (ret_list : list Z) : result (list Z) :=
  match parts with
  | [] => Ok ret_list
  | spec_part :: rest =>
      if contains "-" spec_part then
        match split "-" spec_part with
        | [begin_; end_] =>
            if String.ltb end_ begin_ then Raise (EndSmallerThanBegin spec_part)
            else
              rbind (int_of_str begin_) (fun b =>
              rbind (int_of_str end_) (fun e =>
              parse_parts rest (ret_list ++ range b (e + 1))))
        | fields => Raise (UnpackError (List.length fields))
        end
      else
        rbind (int_of_str spec_part) (fun n =>
        parse_parts rest (ret_list ++ [n]))
  end.

Definition parse_list (spec : string) : result (list Z) :=
  parse_parts (split "," spec) [].

(** ** External effects

    The script talks to the archive and the file system only through
    the calls below.  A run is a function of the environment's answers;
    the actions it performs are recorded in order. *)

Inductive action : Type :=
| Call (argv : list string)     (* subprocess.call(argv, stdout=FNULL, stderr=FNULL) *)
| CheckCall (cmd : string)      (* subprocess.check_call(cmd, shell=True, ...) *)
| System (cmd : string)         (* os.system(cmd) *)
| Popen (cmd : string)          (* os.popen(cmd).read() *)
| Rename (src dst : string)     (* os.rename(src, dst) *)
| Remove (path : string)        (* os.remove(path) *)
| Print (text : string).        (* print(text) *)

(** What the environment answers to an action: the call comes back with
    an exit status and the text it wrote, or it raises. *)
Inductive outcome : Type :=
| Returned (status : Z) (output : string)
| Failed (e : exn).

(** The environment may answer by everything performed so far. *)
Definition env : Type := list action -> action -> outcome.

Definition IO (A : Type) : Type := env -> list action -> result A * list action.

Definition ret {A} (a : A) : IO A := fun _ trace => (Ok a, trace).

Definition raise {A} (e : exn) : IO A := fun _ trace => (Raise e, trace).

Definition bind {A B} (m : IO A) (k : A -> IO B) : IO B :=
  fun world trace =>
    match m world trace with
    | (Ok a, trace') => k a world trace'
    | (Raise e, trace') => (Raise e, trace')
    end.

Definition lift {A} (r : result A) : IO A :=
  match r with
  | Ok a => ret a
  | Raise e => raise e
  end.

Definition perform (a : action) : IO (Z * string) :=
  fun world trace =>
    match world trace a with
    | Returned status output => (Ok (status, output), (trace ++ [a])%list)
    | Failed e => (Raise e, (trace ++ [a])%list)
    end.

Notation "x <- m ;; k" := (bind m (fun x => k))
  (at level 61, m at next level, right associativity).
Notation "m ;;; k" := (bind m (fun _ => k))
  (at level 61, right associativity).

Definition subprocess_call (argv : list string) : IO Z :=
  r <- perform (Call argv) ;; ret (fst r).

Definition subprocess_check_call (cmd : string) : IO unit :=
  r <- perform (CheckCall cmd) ;;
  if fst r =? 0 then ret tt else raise (CalledProcessError (fst r) cmd).

Definition os_system (cmd : string) : IO Z :=
  r <- perform (System cmd) ;; ret (fst r).

Definition os_popen_read (cmd : string) : IO string :=
  r <- perform (Popen cmd) ;; ret (snd r).

Definition os_rename (src dst : string) : IO unit :=
  perform (Rename src dst) ;;; ret tt.

Definition os_remove (path : string) : IO unit :=
  perform (Remove path) ;;; ret tt.

Definition print (text : string) : IO unit :=
  perform (Print text) ;;; ret tt.

(** [for x in xs: s = body x s] *)
Fixpoint for_each {A S} (xs : list A) (body : A -> S -> IO S) (s : S) : IO S :=
  match xs with
  | [] => ret s
  | x :: rest => s' <- body x s ;; for_each rest body s'
  end.

(** ** get_alta_dir (lines 54-88) *)

(** The five path templates, as the format strings spell them. *)
Definition stage_path (date : pyval) (task_id beam_nr : Z) : string :=
  "/altaZone/stage/apertif_main/visibilities_default/" ++ str_of date ++ format_0d 3 task_id
  ++ "/WSRTA" ++ str_of date ++ format_0d 3 task_id ++ "_B" ++ format_0d 3 beam_nr ++ ".MS.tar".

Definition wcudata2_path (date : pyval) (task_id beam_nr : Z) : string :=
  "/altaZone/home/apertif_main/wcudata/WSRTA" ++ str_of date ++ format_0d 2 task_id
  ++ "/WSRTA" ++ str_of date ++ format_0d 2 task_id ++ "_B" ++ format_0d 3 beam_nr ++ ".MS".

Definition wcudata3_path (date : pyval) (task_id beam_nr : Z) : string :=
  "/altaZone/home/apertif_main/wcudata/WSRTA" ++ str_of date ++ format_0d 3 task_id
  ++ "/WSRTA" ++ str_of date ++ format_0d 3 task_id ++ "_B" ++ format_0d 3 beam_nr ++ ".MS".

Definition ingest_path (date : pyval) (task_id beam_nr : Z) : string :=
  "/altaZone/ingest/apertif_main/visibilities_default/" ++ str_of date ++ format_0d 3 task_id
  ++ "/WSRTA" ++ str_of date ++ format_0d 3 task_id ++ "_B" ++ format_0d 3 beam_nr ++ ".MS".

Definition archive_path (date : pyval) (task_id beam_nr : Z) : string :=
  "/altaZone/archive/apertif_main/visibilities_default/" ++ str_of date ++ format_0d 3 task_id
  ++ "/WSRTA" ++ str_of date ++ format_0d 3 task_id ++ "_B" ++ format_0d 3 beam_nr ++ ".MS".

(** [int(str(date) + '%.3d' % task_id)], the key of line 83. *)
Definition composite_key (date : pyval) (task_id : Z) : result Z :=
  int_of_str (str_of date ++ percent_dot_d 3 task_id).

Definition get_alta_dir (date : pyval) (task_id beam_nr : Z) (alta_exception : bool)
  : IO string :=
  (* Test if data is in cold storage retrieval location *)
  let altadir := stage_path date task_id beam_nr in
  let cmd := "ils " ++ altadir in
  testcold <- subprocess_call (split_ws cmd) ;;
  d <- lift (int_of date) ;;
  if d <? 180216 then
    ret (wcudata2_path date task_id beam_nr)
  else
    d' <- lift (int_of date) ;;
    if (d' <? 181003) || alta_exception then
      ret (wcudata3_path date task_id beam_nr)
    else
      key <- lift (composite_key date task_id) ;;
      if key =? 190326001 then
        ret (ingest_path date task_id beam_nr)
      else if testcold =? 0 then
        ret (stage_path date task_id beam_nr)
      else
        ret (archive_path date task_id beam_nr).

(** ** getstatus_alta (lines 93-104)

    [int(task_id)] and [int(beam)] are taken by the caller's types. *)
Definition getstatus_alta (date : pyval) (task_id beam : Z) : IO bool :=
  altadir <- get_alta_dir date task_id beam false ;;
  let cmd := "ils " ++ altadir in
  retcode <- subprocess_call (split_ws cmd) ;;
  ret (retcode =? 0).

(** ** getdata_alta (lines 109-226) *)

(** [task_ids] and [beams] are a list of ints or one int. *)
Inductive ints : Type :=
| One (n : Z)
| Many (ns : list Z).

(** Lines 127-130: [if isinstance(x, int): x = [x]]. *)
Definition as_list (x : ints) : list Z :=
  match x with
  | One n => [n]
  | Many ns => ns
  end.

(** How the transfer loop reads the resolved location (lines 153, 160). *)
Inductive kind : Type := Directory | Tarball.

Definition location_kind (alta_dir : string) : option kind :=
  if String.eqb (last_chars 2 alta_dir) "MS" then Some Directory
  else if String.eqb (last_chars 3 alta_dir) "tar" then Some Tarball
  else None.

(** [WSRTA{date}{task_id:03d}_B{beam_nr:03d}] *)
Definition dataset_name (date : pyval) (task_id beam_nr : Z) : string :=
  "WSRTA" ++ str_of date ++ format_0d 3 task_id ++ "_B" ++ format_0d 3 beam_nr.

Definition iget_cmd (tmpdir : string) (date : pyval) (task_id beam_nr : Z)
    (alta_dir destination : string) : string :=
  "iget -rfPIT -X " ++ tmpdir ++ dataset_name date task_id beam_nr
  ++ "-icat.irods-status --lfrestart "
  ++ tmpdir ++ dataset_name date task_id beam_nr
  ++ "-icat.lf-irods-status --retries 5 " ++ alta_dir ++ " " ++ destination.

(** One pass of the inner loop (lines 150-181); [targetdir] is the
    function's variable, which the tarball branch reassigns. *)
Definition transfer_item (date : pyval) (tmpdir : string) (alta_exception : bool)
    (beam_nr task_id : Z) (targetdir : string) : IO string :=
  alta_dir <- get_alta_dir date task_id beam_nr alta_exception ;;
  match location_kind alta_dir with
  | Some Directory =>
      subprocess_check_call
        (iget_cmd tmpdir date task_id beam_nr alta_dir targetdir) ;;;
      ret targetdir
  | Some Tarball =>
      (* check for tar file and untar if needed *)
      let targetdir := drop_last 1 targetdir in
      subprocess_check_call
        (iget_cmd tmpdir date task_id beam_nr alta_dir (targetdir ++ ".tar")) ;;;
      let head := fst (path_split targetdir) in
      let tarcmd := "tar -xf " ++ targetdir ++ ".tar -C " ++ head in
      (* force untarring *)
      os_system tarcmd ;;;
      (* have to rename *)
      let head := fst (path_split targetdir) in
      print head ;;;
      print (path_join head (dataset_name date task_id beam_nr ++ ".MS")) ;;;
      os_rename (path_join head (dataset_name date task_id beam_nr ++ ".MS")) targetdir ;;;
      (* remove tar file *)
      os_remove (targetdir ++ ".tar") ;;;
      ret targetdir
  | None => ret targetdir
  end.

(** One pass of the inner verification loop (lines 191-205). *)
Definition verify_item (date : pyval) (tmpdir targetdir : string) (alta_exception : bool)
    (beam_nr task_id : Z) : IO unit :=
  alta_dir <- get_alta_dir date task_id beam_nr alta_exception ;;
  let local_dir :=
    if String.eqb targetdir "."
    then "{targetdir}WSRTA{date}{task_id:03d}_B{beam_nr:03d}.MS"
    else targetdir in
  let cmd := "irsync -srl i:" ++ alta_dir ++ " " ++ local_dir ++ " >> "
             ++ tmpdir ++ "transfer_WSRTA" ++ str_of date ++ format_0d 3 task_id
             ++ "_to_alta_verify.log" in
  subprocess_check_call cmd.

(** Lines 211-218: the number of failed files of one task id. *)
Definition count_failed (date : pyval) (tmpdir : string) (task_id : Z) : IO string :=
  let cmd := "grep N " ++ tmpdir ++ "transfer_WSRTA" ++ str_of date
             ++ format_0d 3 task_id ++ "_to_alta_verify.log | wc -l" in
  output <- os_popen_read cmd ;;
  match split_ws output with
  | n_failed_files :: _ => ret n_failed_files
  | [] => raise IndexError
  end.

(** Logging and timing are left out: they neither fail nor feed back
    into the transfer. *)
Definition getdata_alta (date : pyval) (task_ids beams : ints)
    (targetdir tmpdir : string) (alta_exception check_with_rsync : bool) : IO unit :=
  let task_ids := as_list task_ids in
  let beams := as_list beams in
  let tmpdir := if is_empty tmpdir then "." else tmpdir in
  let targetdir := if is_empty targetdir then "." else targetdir in
  let tmpdir := if String.eqb (last_chars 1 tmpdir) "/" then tmpdir else tmpdir ++ "/" in
  let targetdir :=
    if String.eqb (last_chars 1 targetdir) "/" then targetdir else targetdir ++ "/" in
  targetdir <-
    for_each beams (fun beam_nr targetdir =>
      for_each task_ids (fun task_id targetdir =>
        transfer_item date tmpdir alta_exception beam_nr task_id targetdir) targetdir)
      targetdir ;;
  os_system ("rm -rf " ++ tmpdir ++ "*irods-status") ;;;
  (* Add verification at the end of the transfer *)
  if check_with_rsync then
    for_each beams (fun beam_nr _ =>
      for_each task_ids (fun task_id _ =>
        verify_item date tmpdir targetdir alta_exception beam_nr task_id) tt) tt ;;;
    (* Identify server details *)
    os_popen_read "hostname" ;;;
    (* Check for failed files *)
    for_each task_ids (fun task_id _ =>
      count_failed date tmpdir task_id ;;; ret tt) tt
  else ret tt.

(** ** Vocabulary of the statements *)

(** Text made of decimal digits only, and the number it spells. *)
Fixpoint all_digits (s : string) : bool :=
  match s with
  | EmptyString => true
  | String c r => is_digit c && all_digits r
  end.

Definition is_number (s : string) : bool := negb (is_empty s) && all_digits s.

Fixpoint digits_acc (acc : Z) (s : string) : Z :=
  match s with
  | EmptyString => acc
  | String c r => digits_acc (10 * acc + digit_value c) r
  end.

Definition digits_val (s : string) : Z := digits_acc 0 s.

(** A date as the archive writes it: a non-negative int, or its digits
    as text (what the command line hands over). *)
Definition plain_date (date : pyval) : option Z :=
  match date with
  | PyInt n => if 0 <=? n then Some n else None
  | PyStr s => if is_number s then Some (digits_val s) else None
  end.

(** The staged-tier probe of one call of [get_alta_dir]. *)
Definition stage_probe (date : pyval) (task_id beam_nr : Z) : action :=
  Call (split_ws ("ils " ++ stage_path date task_id beam_nr)).

(** An environment in which every call comes back with one status. *)
Definition always (status : Z) : env := fun _ _ => Returned status "0".

(** A range specification as the specification describes it: tokens
    separated by commas, each a bare number or a begin-end pair. *)
Inductive token : Type :=
| Bare (digits : string)
| Span (begin_ end_ : string).

Definition token_text (t : token) : string :=
  match t with
  | Bare s => s
  | Span a b => a ++ "-" ++ b
  end.

Definition token_wf (t : token) : bool :=
  match t with
  | Bare s => is_number s
  | Span a b => is_number a && is_number b
  end.

Definition spec_text (toks : list token) : string :=
  String.concat "," (map token_text toks).

(** The inclusive integer sequence from [lo] to [hi]. *)
Fixpoint count_up (from : Z) (n : nat) : list Z :=
  match n with
  | O => []
  | S k => from :: count_up (from + 1) k
  end.

Definition inclusive (lo hi : Z) : list Z := count_up lo (Z.to_nat (hi - lo + 1)).

(** What the specification's parser returns: the tokens' values, in
    token order, a bare number as a singleton and a pair as its
    inclusive sequence. *)
Definition token_values (t : token) : list Z :=
  match t with
  | Bare s => [digits_val s]
  | Span a b => inclusive (digits_val a) (digits_val b)
  end.

Definition spec_parse (toks : list token) : list Z := flat_map token_values toks.

(** A pair whose end is not below its begin, as numbers and as text. *)
Definition ascending (t : token) : bool :=
  match t with
  | Bare _ => true
  | Span a b => (digits_val a <=? digits_val b) && negb (String.ltb b a)
  end.

(** The file operations among the actions of a run. *)
Definition file_operations (trace : list action) : list action :=
  filter (fun a => match a with Rename _ _ | Remove _ => true | _ => false end) trace.

(** Text without white space. *)
Fixpoint no_space (s : string) : bool :=
  match s with
  | EmptyString => true
  | String c r => negb (is_space c) && no_space r
  end.

(** An environment whose answers do not depend on what was performed
    before: listing one path twice gives one answer. *)
Definition stateless (world : env) : Prop :=
  forall (trace trace' : list action) (a : action), world trace a = world trace' a.

(** A directory argument as lines 132-140 leave it: ["."] for the empty
    text, and a slash at the end. *)
Definition with_slash (dir : string) : string :=
  let dir := if is_empty dir then "." else dir in
  if String.eqb (last_chars 1 dir) "/" then dir else dir ++ "/".

(** The working-data path of a date before the cutover, or under the
    legacy flag (lines 79-82). *)
Definition online_path (date : pyval) (n task_id beam_nr : Z) : string :=
  if n <? 180216 then wcudata2_path date task_id beam_nr
  else wcudata3_path date task_id beam_nr.

(** What the transfer loop performs for one item kept as a directory. *)
Definition directory_item (date : pyval) (n : Z) (tmpdir targetdir : string)
    (beam_nr task_id : Z) : list action :=
  [stage_probe date task_id beam_nr;
   CheckCall (iget_cmd tmpdir date task_id beam_nr
                (online_path date n task_id beam_nr) targetdir)].

(** The sweep of the restart files (line 184). *)
Definition sweep (tmpdir : string) : action :=
  System ("rm -rf " ++ tmpdir ++ "*irods-status").

(** The comparison command of the verification pass (lines 200-202). *)
Definition irsync_cmd (tmpdir : string) (date : pyval) (task_id : Z)
    (alta_dir local_dir : string) : string :=
  "irsync -srl i:" ++ alta_dir ++ " " ++ local_dir ++ " >> "
  ++ tmpdir ++ "transfer_WSRTA" ++ str_of date ++ format_0d 3 task_id
  ++ "_to_alta_verify.log".

(** What the verification pass performs for one item kept as a
    directory, and the count of failed files of one task id. *)
Definition verified_item (date : pyval) (n : Z) (tmpdir targetdir : string)
    (beam_nr task_id : Z) : list action :=
  [stage_probe date task_id beam_nr;
   CheckCall (irsync_cmd tmpdir date task_id (online_path date n task_id beam_nr) targetdir)].

Definition count_action (date : pyval) (tmpdir : string) (task_id : Z) : action :=
  Popen ("grep N " ++ tmpdir ++ "transfer_WSRTA" ++ str_of date
         ++ format_0d 3 task_id ++ "_to_alta_verify.log | wc -l").

(** ** Digit strings and decimal notation *)

Section DigitStrings.

Lemma is_digit_not_space c : is_digit c = true -> is_space c = false.
Proof.
  destruct c as [[] [] [] [] [] [] [] []]; vm_compute; congruence.
Qed.

Lemma is_digit_value c : is_digit c = true -> 0 <= digit_value c <= 9.
Proof.
  destruct c as [[] [] [] [] [] [] [] []]; vm_compute; intuition congruence.
Qed.

Lemma is_digit_not_char c x : is_digit c = true -> is_digit x = false -> Ascii.eqb c x = false.
Proof.
  intros Hc Hx. destruct (Ascii.eqb_spec c x) as [->|]; congruence.
Qed.

Lemma digits_acc_shift s : forall acc,
  digits_acc acc s = acc * 10 ^ Z.of_nat (String.length s) + digits_acc 0 s.
Proof.
  induction s as [|c r IH]; intros acc.
  - simpl. lia.
  - cbn [digits_acc String.length]. rewrite IH, (IH (10 * 0 + digit_value c)).
    rewrite Nat2Z.inj_succ, Z.pow_succ_r by lia. ring.
Qed.

Lemma digits_acc_app a b : forall acc,
  digits_acc acc (a ++ b) = digits_acc (digits_acc acc a) b.
Proof.
  induction a as [|c r IH]; intros acc; [reflexivity|].
  cbn [String.append digits_acc]. apply IH.
Qed.

Lemma digits_val_app a b :
  digits_val (a ++ b) = digits_val a * 10 ^ Z.of_nat (String.length b) + digits_val b.
Proof.
  unfold digits_val. rewrite digits_acc_app. apply digits_acc_shift.
Qed.

Lemma digits_val_bounds s : all_digits s = true ->
  0 <= digits_val s < 10 ^ Z.of_nat (String.length s).
Proof.
  unfold digits_val. induction s as [|c r IH].
  - simpl. lia.
  - cbn [all_digits digits_acc String.length]. intros H.
    apply andb_prop in H as [Hc Hr]. rewrite digits_acc_shift.
    pose proof (is_digit_value c Hc). specialize (IH Hr).
    rewrite Nat2Z.inj_succ, Z.pow_succ_r by lia. nia.
Qed.

Lemma int_digits_all_digits s : forall acc after,
  all_digits s = true -> (is_empty s = false \/ after = true) ->
  int_digits acc after s = Some (digits_acc acc s).
Proof.
  induction s as [|c r IH]; intros acc after Hd Hne.
  - destruct Hne as [Hne | ->]; [discriminate | reflexivity].
  - cbn [all_digits] in Hd. apply andb_prop in Hd as [Hc Hr].
    cbn [int_digits digits_acc]. rewrite Hc. apply IH; auto.
Qed.

Lemma is_digit_not_int_space c : is_digit c = true -> is_int_space c = false.
Proof.
  destruct c as [[] [] [] [] [] [] [] []]; vm_compute; congruence.
Qed.

Lemma digits_strip s : all_digits s = true ->
  lstrip is_int_space s = s /\ rstrip is_int_space s = s.
Proof.
  induction s as [|c r IH]; [auto|].
  cbn [all_digits]. intros H. apply andb_prop in H as [Hc Hr].
  destruct (IH Hr) as [_ IHr]. cbn [lstrip rstrip].
  rewrite IHr, (is_digit_not_int_space c Hc), andb_false_r. auto.
Qed.

(** [int()] reads a digit string as the number it spells. *)
Lemma int_of_str_number s : is_number s = true -> int_of_str s = Ok (digits_val s).
Proof.
  unfold is_number. intros H. apply andb_prop in H as [Hne Hd].
  unfold int_of_str, strip. destruct (digits_strip s Hd) as [-> ->].
  destruct s as [|c r]; [discriminate|].
  assert (Hc : is_digit c = true) by (cbn in Hd; apply andb_prop in Hd; tauto).
  assert (Hm : Ascii.eqb c "-" = false) by (apply is_digit_not_char; auto).
  assert (Hp : Ascii.eqb c "+" = false) by (apply is_digit_not_char; auto).
  apply Ascii.eqb_neq in Hm, Hp.
  assert (E : (let '(negative, digits) :=
                 match String c r with
                 | String "-" r0 => (true, r0)
                 | String "+" r0 => (false, r0)
                 | _ => (false, String c r)
                 end in
               match int_digits 0 false digits with
               | Some v => Ok (if negative then - v else v)
               | None => Raise (InvalidLiteral (String c r))
               end) = Ok (digits_val (String c r))).
  { assert (M : match String c r with
                | String "-" r0 => (true, r0)
                | String "+" r0 => (false, r0)
                | _ => (false, String c r)
                end = (false, String c r)).
    { destruct c as [[] [] [] [] [] [] [] []]; try reflexivity; congruence. }
    rewrite M. rewrite int_digits_all_digits by auto. reflexivity. }
  exact E.
Qed.

End DigitStrings.

Section DecimalNotation.

Lemma length_append a b : String.length (a ++ b) = (String.length a + String.length b)%nat.
Proof. induction a as [|c r IH]; simpl; congruence. Qed.

Lemma append_assoc a b c : (a ++ b) ++ c = a ++ b ++ c.
Proof. induction a as [|x r IH]; simpl; congruence. Qed.

Lemma all_digits_app a b : all_digits (a ++ b) = all_digits a && all_digits b.
Proof.
  induction a as [|c r IH]; [reflexivity|].
  cbn [String.append all_digits]. rewrite IH. apply andb_assoc.
Qed.

Lemma is_number_app a b :
  is_number a = true -> all_digits b = true -> is_number (a ++ b) = true.
Proof.
  unfold is_number. intros Ha Hb. apply andb_prop in Ha as [Hne Hd].
  rewrite all_digits_app, Hd, Hb. destruct a; [discriminate | reflexivity].
Qed.

Lemma uint_all_digits d : all_digits (NilEmpty.string_of_uint d) = true.
Proof. induction d; simpl; auto. Qed.

Lemma uint_digits_acc d : forall p,
  digits_acc (Zpos p) (NilEmpty.string_of_uint d) = Zpos (Pos.of_uint_acc d p).
Proof.
  induction d; intros p; cbn [NilEmpty.string_of_uint digits_acc Pos.of_uint_acc];
    [reflexivity | rewrite <- IHd; f_equal; vm_compute digit_value; lia ..].
Qed.

Lemma uint_digits_val d :
  digits_val (NilEmpty.string_of_uint d) = Z.of_N (Pos.of_uint d).
Proof.
  unfold digits_val.
  induction d; cbn [NilEmpty.string_of_uint digits_acc Pos.of_uint];
    [reflexivity | exact IHd | apply (uint_digits_acc d) ..].
Qed.

(** [str] of a non-negative int is its digits, and [int] reads them back. *)
Lemma str_of_int_number n : 0 <= n ->
  is_number (str_of_int n) = true /\ digits_val (str_of_int n) = n.
Proof.
  intros Hn. destruct n as [|p|p]; [split; reflexivity | | lia].
  unfold str_of_int. cbn [Z.to_int NilZero.string_of_int].
  pose proof (DecimalPos.Unsigned.to_uint_nonnil p) as Hnil.
  assert (E : NilZero.string_of_uint (Pos.to_uint p)
              = NilEmpty.string_of_uint (Pos.to_uint p)).
  { destruct (Pos.to_uint p); [congruence | reflexivity ..]. }
  rewrite E. split.
  - unfold is_number. rewrite uint_all_digits, andb_true_r.
    destruct (Pos.to_uint p); [congruence | reflexivity ..].
  - rewrite uint_digits_val, DecimalPos.Unsigned.of_to. reflexivity.
Qed.

Lemma repeat_zero_digits k :
  all_digits (repeat_char "0" k) = true /\ digits_val (repeat_char "0" k) = 0.
Proof.
  induction k as [|k [IH1 IH2]]; [split; reflexivity|].
  split; [exact IH1 | exact IH2].
Qed.

Lemma length_repeat_char c k : String.length (repeat_char c k) = k.
Proof. induction k; simpl; congruence. Qed.

(** Zero filling keeps the number and reaches the width. *)
Lemma zero_filled_number w n : 0 <= n ->
  is_number (zero_filled w n) = true
  /\ digits_val (zero_filled w n) = n
  /\ (w <= String.length (zero_filled w n))%nat.
Proof.
  intros Hn. unfold zero_filled. rewrite Z.abs_eq by assumption.
  destruct (str_of_int_number n Hn) as [Hnum Hval].
  destruct (repeat_zero_digits (w - String.length (str_of_int n))) as [Hz Hz0].
  assert (Hd : all_digits (str_of_int n) = true)
    by (unfold is_number in Hnum; apply andb_prop in Hnum; tauto).
  repeat split.
  - unfold is_number. rewrite all_digits_app, Hz, Hd.
    destruct (str_of_int n) eqn:E; [discriminate|].
    destruct (repeat_char "0" _); reflexivity.
  - rewrite digits_val_app, Hz0, Hval. lia.
  - rewrite length_append, length_repeat_char. lia.
Qed.

Lemma format_0d_nonneg w n : 0 <= n -> format_0d w n = zero_filled w n.
Proof. intros H. unfold format_0d. destruct (Z.ltb_spec n 0); [lia | reflexivity]. Qed.

Lemma percent_dot_d_nonneg w n : 0 <= n -> percent_dot_d w n = zero_filled w n.
Proof. intros H. unfold percent_dot_d. destruct (Z.ltb_spec n 0); [lia | reflexivity]. Qed.

End DecimalNotation.

(** ** parse_list *)

Section ParseList.

Lemma range_inclusive lo hi : range lo (hi + 1) = inclusive lo hi.
Proof.
  unfold range, inclusive. replace (hi + 1 - lo) with (hi - lo + 1) by lia.
  generalize (Z.to_nat (hi - lo + 1)) as n. intros n.
  assert (G : forall k from, map (fun i => from + Z.of_nat i) (seq 0 k) = count_up from k).
  { induction k as [|k IH]; intros from; [reflexivity|].
    cbn [seq map count_up]. f_equal; [lia|].
    rewrite <- seq_shift, map_map, <- IH. apply map_ext. intros i. lia. }
  apply G.
Qed.

Lemma inclusive_spec lo hi x : In x (inclusive lo hi) <-> lo <= x <= hi.
Proof.
  unfold inclusive.
  assert (G : forall k from, In x (count_up from k) <-> from <= x < from + Z.of_nat k).
  { induction k as [|k IH]; intros from.
    - simpl. lia.
    - cbn [count_up In]. rewrite IH. lia. }
  rewrite G. lia.
Qed.

Lemma contains_app c a b : contains c (a ++ b) = contains c a || contains c b.
Proof.
  induction a as [|x r IH]; [reflexivity|].
  cbn [String.append contains]. rewrite IH. apply orb_assoc.
Qed.

Lemma digits_lack c s : is_digit c = false -> all_digits s = true -> contains c s = false.
Proof.
  intros Hc. induction s as [|x r IH]; [reflexivity|].
  cbn [all_digits contains]. intros H. apply andb_prop in H as [Hx Hr].
  rewrite (is_digit_not_char x c Hx Hc), IH; auto.
Qed.

Lemma split_without c s : contains c s = false -> split c s = [s].
Proof.
  induction s as [|x r IH]; [reflexivity|].
  cbn [contains split]. intros H. apply orb_false_elim in H as [Hx Hr].
  rewrite Hx, IH; auto.
Qed.

Lemma split_at c a b : contains c a = false -> split c (a ++ String c b) = a :: split c b.
Proof.
  induction a as [|x r IH].
  - intros _. cbn [String.append split]. rewrite Ascii.eqb_refl. reflexivity.
  - cbn [contains String.append split]. intros H. apply orb_false_elim in H as [Hx Hr].
    rewrite Hx, IH; auto.
Qed.

Lemma token_lacks_comma t : token_wf t = true -> contains "," (token_text t) = false.
Proof.
  destruct t as [s | a b]; cbn [token_wf token_text]; unfold is_number; intros H.
  - apply andb_prop in H as [_ H]. apply digits_lack; auto.
  - apply andb_prop in H as [Ha Hb].
    apply andb_prop in Ha as [_ Ha]. apply andb_prop in Hb as [_ Hb].
    rewrite !contains_app. cbn [contains].
    rewrite (digits_lack "," a), (digits_lack "," b); auto.
Qed.

(** Splitting the text of a specification at its commas gives back the
    tokens' texts. *)
Lemma split_spec_text toks : toks <> [] -> forallb token_wf toks = true ->
  split "," (spec_text toks) = map token_text toks.
Proof.
  unfold spec_text. induction toks as [|t rest IH]; [congruence|].
  intros _ H. cbn [forallb] in H. apply andb_prop in H as [Ht Hrest].
  destruct rest as [|u rest'].
  - cbn [map String.concat]. apply split_without, token_lacks_comma, Ht.
  - change (String.concat "," (map token_text (t :: u :: rest')))
      with (token_text t ++ String "," (String.concat "," (map token_text (u :: rest')))).
    rewrite split_at by (apply token_lacks_comma, Ht).
    rewrite IH by (auto; congruence). reflexivity.
Qed.

(** The loop over the tokens' texts: every token adds its values. *)
Lemma parse_parts_tokens toks : forall ret_list,
  forallb token_wf toks = true -> forallb ascending toks = true ->
  parse_parts (map token_text toks) ret_list = Ok (ret_list ++ spec_parse toks)%list.
Proof.
  induction toks as [|t rest IH]; intros ret_list Hwf Hasc.
  - cbn. rewrite app_nil_r. reflexivity.
  - cbn [forallb] in Hwf, Hasc.
    apply andb_prop in Hwf as [Ht Hrest]. apply andb_prop in Hasc as [At Arest].
    cbn [map parse_parts]. unfold spec_parse. cbn [flat_map]. fold (spec_parse rest).
    destruct t as [s | a b]; cbn [token_wf token_text token_values ascending] in *.
    + assert (Hd : all_digits s = true)
        by (unfold is_number in Ht; apply andb_prop in Ht; tauto).
      rewrite (digits_lack "-" s) by auto.
      rewrite int_of_str_number by auto. cbn [rbind].
      rewrite IH by auto. rewrite <- List.app_assoc. reflexivity.
    + apply andb_prop in Ht as [Ha Hb]. apply andb_prop in At as [_ Hlt].
      apply negb_true_iff in Hlt.
      assert (Da : all_digits a = true)
        by (unfold is_number in Ha; apply andb_prop in Ha; tauto).
      assert (Db : all_digits b = true)
        by (unfold is_number in Hb; apply andb_prop in Hb; tauto).
      rewrite contains_app. cbn [String.append contains]. rewrite Ascii.eqb_refl.
      rewrite orb_true_r.
      rewrite split_at by (apply digits_lack; auto).
      rewrite split_without by (apply digits_lack; auto).
      rewrite Hlt.
      rewrite !int_of_str_number by auto. cbn [rbind].
      rewrite IH by auto. rewrite range_inclusive, <- List.app_assoc. reflexivity.
Qed.

(** Characters compare as their codes do, so digits compare as numbers. *)
Lemma ascii_compare_digit_value c1 c2 :
  Ascii.compare c1 c2 = (digit_value c1 ?= digit_value c2).
Proof.
  unfold Ascii.compare, digit_value, nat_of_ascii.
  rewrite !N_nat_Z, <- (N2Z.inj_compare (N_of_ascii c1) (N_of_ascii c2)).
  rewrite <- (Zcompare_plus_compat _ _ (-48)), !(Z.add_comm (-48)). reflexivity.
Qed.

Lemma digits_val_cons c r :
  digits_val (String c r) = digit_value c * 10 ^ Z.of_nat (String.length r) + digits_val r.
Proof.
  unfold digits_val. cbn [digits_acc]. rewrite digits_acc_shift.
  replace (10 * 0 + digit_value c) with (digit_value c) by lia. reflexivity.
Qed.

(** On digit strings of one width the text order is the numeric order:
    there the test of line 42 is the test its message announces. *)
Lemma same_width_compare a : forall b,
  all_digits a = true -> all_digits b = true -> String.length a = String.length b ->
  String.compare a b = (digits_val a ?= digits_val b).
Proof.
  induction a as [|c r IH]; intros [|d q] Ha Hb Hlen; try discriminate; [reflexivity|].
  cbn [all_digits] in Ha, Hb.
  apply andb_prop in Ha as [Hc Hr]. apply andb_prop in Hb as [Hd Hq].
  injection Hlen as Hlen.
  cbn [String.compare]. rewrite ascii_compare_digit_value, (IH q Hr Hq Hlen).
  rewrite !digits_val_cons, Hlen.
  pose proof (digits_val_bounds r Hr) as Br. pose proof (digits_val_bounds q Hq) as Bq.
  rewrite Hlen in Br.
  pose proof (is_digit_value c Hc). pose proof (is_digit_value d Hd).
  set (w := 10 ^ Z.of_nat (String.length q)) in *.
  set (x := digits_val r) in *. set (y := digits_val q) in *.
  destruct (Z.compare_spec (digit_value c) (digit_value d)) as [E | L | G].
  - rewrite E. destruct (Z.compare_spec x y);
      symmetry; [apply Z.compare_eq_iff | apply Z.compare_lt_iff | apply Z.compare_gt_iff]; lia.
  - symmetry. apply Z.compare_lt_iff. nia.
  - symmetry. apply Z.compare_gt_iff. nia.
Qed.

Lemma same_width_ltb a b :
  is_number a = true -> is_number b = true -> String.length a = String.length b ->
  String.ltb b a = (digits_val b <? digits_val a).
Proof.
  unfold is_number. intros Ha Hb Hlen.
  apply andb_prop in Ha as [_ Ha]. apply andb_prop in Hb as [_ Hb].
  unfold String.ltb, Z.ltb. rewrite (same_width_compare b a) by auto. reflexivity.
Qed.

(** A pair written with one width and a begin not above its end passes
    the guard of line 42. *)
Lemma same_width_ascending a b :
  is_number a = true -> is_number b = true -> String.length a = String.length b ->
  digits_val a <= digits_val b -> ascending (Span a b) = true.
Proof.
  intros Ha Hb Hlen Hle. cbn [ascending].
  rewrite (same_width_ltb a b Ha Hb Hlen).
  apply andb_true_intro. split; [apply Z.leb_le; lia|].
  apply negb_true_iff, Z.ltb_ge. lia.
Qed.

(** C3 (as amended): on a string of comma-separated tokens, each a bare
    non-negative integer or a begin-end pair whose end is not below its
    begin (as numbers, and under the text comparison of line 42, which
    agrees with the numeric one for pairs written with one width),
    [parse_list] returns the tokens' values concatenated in token order:
    a bare integer as a singleton, a pair as the inclusive sequence from
    begin to end.  In particular the docstring's example holds. *)
Theorem parse_list_concatenates (tok : token) (rest : list token) :
  let toks := tok :: rest in
  forallb token_wf toks = true ->
  forallb ascending toks = true ->
  parse_list (spec_text toks) = Ok (spec_parse toks)
  /\ parse_list "00-04,07,09-12" = Ok [0; 1; 2; 3; 4; 7; 9; 10; 11; 12].
Proof.
  intros toks Hwf Hasc. split; [|reflexivity].
  unfold parse_list. rewrite split_spec_text by (subst toks; auto; discriminate).
  apply (parse_parts_tokens toks []); assumption.
Qed.

Lemma parse_list_concatenates_witness :
  parse_list (spec_text [Span "00" "04"; Bare "07"; Span "09" "12"])
  = Ok (spec_parse [Span "00" "04"; Bare "07"; Span "09" "12"])
  /\ parse_list "00-04,07,09-12" = Ok [0; 1; 2; 3; 4; 7; 9; 10; 11; 12].
Proof.
  apply (parse_list_concatenates (Span "00" "04") [Bare "07"; Span "09" "12"]);
    reflexivity.
Defined.

(** C3 as stated fails: a pair with its end below its begin is refused
    by the guard of line 42 (the docstring's second example), where the
    stated contract has a value for every such string. *)
Lemma parse_list_descending_pair_raises :
  parse_list (spec_text [Span "05" "04"]) = Raise (EndSmallerThanBegin "05-04")
  /\ spec_parse [Span "05" "04"] = [].
Proof. split; reflexivity. Qed.

(** C4: the guard of line 42 compares the texts of end and begin, not
    their numbers.  The pair 9-10 is refused although 10 is not smaller
    than 9, and 10-9 is let through (to an empty range) although 9 is
    smaller than 10; the docstring's pair 05-04 is refused as announced. *)
Theorem parse_list_guard_compares_text :
  parse_list "9-10" = Raise (EndSmallerThanBegin "9-10")
  /\ parse_list "10-9" = Ok []
  /\ parse_list "05-04" = Raise (EndSmallerThanBegin "05-04").
Proof. repeat split; reflexivity. Qed.

Lemma int_of_str_raises s e : int_of_str s = Raise e -> e = InvalidLiteral s.
Proof.
  unfold int_of_str.
  destruct (match strip is_int_space s with
            | String "-" r => (true, r)
            | String "+" r => (false, r)
            | _ => (false, strip is_int_space s)
            end) as [negative digits].
  destruct (int_digits 0 false digits); [discriminate | congruence].
Qed.



(** What the guard decides in general: a well-formed pair is refused
    exactly when the text of its end sorts before the text of its begin. *)
Lemma parse_list_pair a b : is_number a = true -> is_number b = true ->
  parse_list (a ++ "-" ++ b) =
    if String.ltb b a then Raise (EndSmallerThanBegin (a ++ "-" ++ b))
    else Ok (inclusive (digits_val a) (digits_val b)).
Proof.
  intros Ha Hb.
  assert (Da : all_digits a = true)
    by (unfold is_number in Ha; apply andb_prop in Ha; tauto).
  assert (Db : all_digits b = true)
    by (unfold is_number in Hb; apply andb_prop in Hb; tauto).
  unfold parse_list.
  rewrite (split_without "," (a ++ "-" ++ b)).
  2:{ rewrite !contains_app. cbn [contains].
      rewrite (digits_lack "," a), (digits_lack "," b); auto. }
  cbn [parse_parts].
  rewrite contains_app. cbn [String.append contains]. rewrite Ascii.eqb_refl, orb_true_r.
  rewrite split_at by (apply digits_lack; auto).
  rewrite split_without by (apply digits_lack; auto).
  destruct (String.ltb b a); [reflexivity|].
  rewrite !int_of_str_number by auto. cbn [rbind parse_parts app].
  rewrite range_inclusive. reflexivity.
Qed.

End ParseList.

(** ** get_alta_dir *)

Section Resolver.

Variables (date : pyval) (task_id beam_nr : Z).

(** One call of [get_alta_dir], unfolded: the probe is performed first,
    and its status is all that the rest reads of the environment. *)
Lemma get_alta_dir_run (alta_exception : bool) (world : env) (trace : list action) :
  get_alta_dir date task_id beam_nr alta_exception world trace =
  (match world trace (stage_probe date task_id beam_nr) with
   | Failed e => Raise e
   | Returned status _ =>
       rbind (int_of date) (fun d =>
         if d <? 180216 then Ok (wcudata2_path date task_id beam_nr)
         else if (d <? 181003) || alta_exception then Ok (wcudata3_path date task_id beam_nr)
         else rbind (composite_key date task_id) (fun key =>
           if key =? 190326001 then Ok (ingest_path date task_id beam_nr)
           else if status =? 0 then Ok (stage_path date task_id beam_nr)
           else Ok (archive_path date task_id beam_nr)))
   end, (trace ++ [stage_probe date task_id beam_nr])%list).
Proof.
  unfold get_alta_dir, subprocess_call, bind, perform, stage_probe.
  destruct (world trace _) as [status output | e]; [|reflexivity].
  cbn [ret fst]. destruct (int_of date) as [d | e]; [|reflexivity].
  cbn [lift ret rbind]. destruct (d <? 180216); [reflexivity|].
  destruct ((d <? 181003) || alta_exception); [reflexivity|].
  destruct (composite_key date task_id) as [key | e]; [|reflexivity].
  cbn [lift ret rbind]. destruct (key =? 190326001); [reflexivity|].
  destruct (status =? 0); reflexivity.
Qed.

Lemma plain_date_facts n : plain_date date = Some n ->
  0 <= n /\ int_of date = Ok n
  /\ is_number (str_of date) = true /\ digits_val (str_of date) = n.
Proof.
  destruct date as [m | s]; cbn [plain_date int_of str_of].
  - destruct (Z.leb_spec 0 m); [|discriminate]. intros [= <-].
    destruct (str_of_int_number m) as [H1 H2]; auto.
  - destruct (is_number s) eqn:E; [|discriminate]. intros [= <-].
    assert (Hd : all_digits s = true)
      by (unfold is_number in E; apply andb_prop in E; tauto).
    pose proof (digits_val_bounds s Hd). rewrite int_of_str_number by auto.
    repeat split; auto; lia.
Qed.

(** The key of line 83 on a plain date and a non-negative task id: the
    date's number shifted by the width of the task id's digits. *)
Lemma composite_key_plain n : plain_date date = Some n -> 0 <= task_id ->
  let w := Z.of_nat (String.length (zero_filled 3 task_id)) in
  3 <= w /\ task_id < 10 ^ w /\ composite_key date task_id = Ok (n * 10 ^ w + task_id).
Proof.
  intros Hd Ht w. destruct (plain_date_facts n Hd) as (Hn & _ & Hnum & Hval).
  destruct (zero_filled_number 3 task_id Ht) as (Znum & Zval & Zlen).
  assert (Zd : all_digits (zero_filled 3 task_id) = true)
    by (unfold is_number in Znum; apply andb_prop in Znum; tauto).
  pose proof (digits_val_bounds _ Zd) as Zb. rewrite Zval in Zb.
  split; [subst w; lia|]. split; [subst w; lia|].
  unfold composite_key. rewrite percent_dot_d_nonneg by assumption.
  rewrite int_of_str_number by (apply is_number_app; auto).
  rewrite digits_val_app, Hval, Zval. reflexivity.
Qed.

(** From the cutover date on, the key is 190326001 for the date 190326
    with task id 1 and for no other pair. *)
Lemma composite_key_exception n : plain_date date = Some n -> 181003 <= n -> 0 <= task_id ->
  exists key, composite_key date task_id = Ok key
              /\ ((key =? 190326001) = true <-> n = 190326 /\ task_id = 1).
Proof.
  intros Hd Hn Ht. destruct (composite_key_plain n Hd Ht) as (Hw & Hlt & Hkey).
  set (w := Z.of_nat (String.length (zero_filled 3 task_id))) in *.
  exists (n * 10 ^ w + task_id). split; [exact Hkey|].
  rewrite Z.eqb_eq. split.
  - intros E. destruct (Z.eq_dec w 3) as [W | W].
    + rewrite W in *. change (10 ^ 3) with 1000 in *. lia.
    + exfalso. assert (P : 10 ^ 4 <= 10 ^ w) by (apply Z.pow_le_mono_r; lia).
      change (10 ^ 4) with 10000 in P. nia.
  - intros [-> ->]. subst w. reflexivity.
Qed.

End Resolver.

(** ** The kinds and the tiers of the resolved paths *)

Section Paths.

Lemma skip_append a b k : skip (String.length a + k) (a ++ b) = skip k b.
Proof. induction a as [|c r IH]; [reflexivity | exact IH]. Qed.

Lemma last_chars_append n a b :
  String.length b = n -> last_chars n (a ++ b) = b.
Proof.
  intros <-. unfold last_chars. rewrite length_append.
  replace (String.length a + String.length b - String.length b)%nat
    with (String.length a + 0)%nat by lia.
  apply skip_append.
Qed.

(** A path that ends in [.MS] is read as a directory, one that ends in
    [.MS.tar] as a tarball (lines 153 and 160). *)
Lemma location_kind_MS p : location_kind (p ++ ".MS") = Some Directory.
Proof.
  unfold location_kind.
  change (p ++ ".MS") with (p ++ String "." "MS").
  replace (p ++ String "." "MS") with ((p ++ ".") ++ "MS")
    by (rewrite append_assoc; reflexivity).
  rewrite (last_chars_append 2 (p ++ ".") "MS") by reflexivity. reflexivity.
Qed.

Lemma location_kind_tar p : location_kind (p ++ ".MS.tar") = Some Tarball.
Proof.
  unfold location_kind.
  replace (p ++ ".MS.tar") with ((p ++ ".MS.t") ++ "ar")
    by (rewrite append_assoc; reflexivity).
  rewrite (last_chars_append 2 (p ++ ".MS.t") "ar") by reflexivity.
  replace ((p ++ ".MS.t") ++ "ar") with ((p ++ ".MS.") ++ "tar")
    by (rewrite !append_assoc; reflexivity).
  rewrite (last_chars_append 3 (p ++ ".MS.") "tar") by reflexivity. reflexivity.
Qed.

Variables (date : pyval) (task_id beam_nr : Z).

Lemma wcudata2_kind : location_kind (wcudata2_path date task_id beam_nr) = Some Directory.
Proof. unfold wcudata2_path. rewrite <- !append_assoc. apply location_kind_MS. Qed.

Lemma wcudata3_kind : location_kind (wcudata3_path date task_id beam_nr) = Some Directory.
Proof. unfold wcudata3_path. rewrite <- !append_assoc. apply location_kind_MS. Qed.

Lemma ingest_kind : location_kind (ingest_path date task_id beam_nr) = Some Directory.
Proof. unfold ingest_path. rewrite <- !append_assoc. apply location_kind_MS. Qed.

Lemma archive_kind : location_kind (archive_path date task_id beam_nr) = Some Directory.
Proof. unfold archive_path. rewrite <- !append_assoc. apply location_kind_MS. Qed.

Lemma stage_kind : location_kind (stage_path date task_id beam_nr) = Some Tarball.
Proof. unfold stage_path. rewrite <- !append_assoc. apply location_kind_tar. Qed.

(** The ingest tier has a root of its own. *)
Lemma ingest_not_wcudata2 :
  wcudata2_path date task_id beam_nr <> ingest_path date task_id beam_nr.
Proof. unfold wcudata2_path, ingest_path. cbn [String.append]. discriminate. Qed.

Lemma ingest_not_wcudata3 :
  wcudata3_path date task_id beam_nr <> ingest_path date task_id beam_nr.
Proof. unfold wcudata3_path, ingest_path. cbn [String.append]. discriminate. Qed.

Lemma ingest_not_stage :
  stage_path date task_id beam_nr <> ingest_path date task_id beam_nr.
Proof. unfold stage_path, ingest_path. cbn [String.append]. discriminate. Qed.

Lemma ingest_not_archive :
  archive_path date task_id beam_nr <> ingest_path date task_id beam_nr.
Proof. unfold archive_path, ingest_path. cbn [String.append]. discriminate. Qed.

Lemma no_space_append a b : no_space (a ++ b) = no_space a && no_space b.
Proof.
  induction a as [|c r IH]; [reflexivity|].
  cbn [String.append no_space]. rewrite IH. apply andb_assoc.
Qed.

Lemma digits_no_space s : all_digits s = true -> no_space s = true.
Proof.
  induction s as [|c r IH]; [reflexivity|].
  cbn [all_digits no_space]. intros H. apply andb_prop in H as [Hc Hr].
  rewrite (is_digit_not_space c Hc), IH; auto.
Qed.

Lemma zero_filled_no_space w n : no_space (zero_filled w n) = true.
Proof.
  destruct (zero_filled_number w (Z.abs n) (Z.abs_nonneg n)) as (Hnum & _).
  unfold zero_filled in *. rewrite Z.abs_idemp in Hnum.
  apply digits_no_space. unfold is_number in Hnum. apply andb_prop in Hnum. tauto.
Qed.

Lemma format_0d_no_space w n : no_space (format_0d w n) = true.
Proof.
  unfold format_0d. destruct (n <? 0); cbn [no_space]; rewrite zero_filled_no_space; reflexivity.
Qed.

Lemma str_of_int_no_space n : no_space (str_of_int n) = true.
Proof.
  destruct n as [|p|p]; [reflexivity | |].
  - apply digits_no_space. destruct (str_of_int_number (Z.pos p)) as [H _]; [lia|].
    unfold is_number in H. apply andb_prop in H. tauto.
  - change (str_of_int (Z.neg p)) with (String "-" (str_of_int (Z.pos p))).
    cbn [no_space]. rewrite digits_no_space; [reflexivity|].
    destruct (str_of_int_number (Z.pos p)) as [H _]; [lia|].
    unfold is_number in H. apply andb_prop in H. tauto.
Qed.

Lemma ws_fields_no_space p : no_space p = true -> ws_fields p = (p, []).
Proof.
  induction p as [|c r IH]; [reflexivity|].
  cbn [no_space ws_fields]. intros H. apply andb_prop in H as [Hc Hr].
  rewrite (IH Hr). apply negb_true_iff in Hc. rewrite Hc. reflexivity.
Qed.

(** X17: when the date's text has no white space (an int, or digits),
    the command of line 76 splits into exactly the program and the
    staged path, whatever the task id and the beam. *)
Lemma stage_probe_argv : no_space (str_of date) = true ->
  stage_probe date task_id beam_nr = Call ["ils"; stage_path date task_id beam_nr].
Proof.
  intros Hd. unfold stage_probe. f_equal.
  assert (Hp : no_space (stage_path date task_id beam_nr) = true).
  { unfold stage_path. rewrite !no_space_append, Hd, !format_0d_no_space. reflexivity. }
  unfold split_ws. cbn [String.append ws_fields].
  rewrite (ws_fields_no_space _ Hp).
  unfold stage_path at 1. cbn [String.append is_empty is_space]. reflexivity.
Qed.

End Paths.

(** ** The resolution policy *)

Section Policy.

Ltac run_resolver H :=
  rewrite get_alta_dir_run, H; cbn [fst].

(** C5: a date before 180216 resolves to the two-digit task-id path of
    the working-data area,
    [<root>/WSRTA<date><task:02d>/WSRTA<date><task:02d>_B<beam:03d>.MS],
    which the transfer loop reads as a directory, whatever status the
    staged-tier probe came back with and whatever the legacy flag. *)
Theorem before_180216_two_digit_path
    (date : pyval) (n task_id beam_nr : Z) (alta_exception : bool)
    (world : env) (trace : list action) (status : Z) (output : string) :
  int_of date = Ok n ->
  n < 180216 ->
  world trace (stage_probe date task_id beam_nr) = Returned status output ->
  fst (get_alta_dir date task_id beam_nr alta_exception world trace)
    = Ok (wcudata2_path date task_id beam_nr)
  /\ location_kind (wcudata2_path date task_id beam_nr) = Some Directory
  /\ wcudata2_path date task_id beam_nr
     = "/altaZone/home/apertif_main/wcudata/WSRTA" ++ str_of date ++ format_0d 2 task_id
       ++ "/WSRTA" ++ str_of date ++ format_0d 2 task_id
       ++ "_B" ++ format_0d 3 beam_nr ++ ".MS".
Proof.
  intros Hd Hn Hw. split; [|split; [apply wcudata2_kind | reflexivity]].
  run_resolver Hw. rewrite Hd. cbn [rbind].
  destruct (Z.ltb_spec n 180216); [reflexivity | lia].
Qed.

Lemma before_180216_two_digit_path_witness :
  fst (get_alta_dir (PyInt 180201) 5 35 false (always 0) [])
    = Ok "/altaZone/home/apertif_main/wcudata/WSRTA18020105/WSRTA18020105_B035.MS"
  /\ location_kind "/altaZone/home/apertif_main/wcudata/WSRTA18020105/WSRTA18020105_B035.MS"
     = Some Directory
  /\ wcudata2_path (PyInt 180201) 5 35
     = "/altaZone/home/apertif_main/wcudata/WSRTA18020105/WSRTA18020105_B035.MS".
Proof.
  apply (before_180216_two_digit_path (PyInt 180201) 180201 5 35 false (always 0) [] 0 "0");
    [reflexivity | lia | reflexivity].
Defined.

(** C6: a date from 180216 on that is before 181003, or any such date
    when the legacy flag is set, resolves to the three-digit task-id
    path of the working-data area,
    [<root>/WSRTA<date><task:03d>/WSRTA<date><task:03d>_B<beam:03d>.MS],
    read as a directory, whatever status the staged-tier probe came back
    with. *)
Theorem from_180216_three_digit_path
    (date : pyval) (n task_id beam_nr : Z) (alta_exception : bool)
    (world : env) (trace : list action) (status : Z) (output : string) :
  int_of date = Ok n ->
  180216 <= n ->
  n < 181003 \/ alta_exception = true ->
  world trace (stage_probe date task_id beam_nr) = Returned status output ->
  fst (get_alta_dir date task_id beam_nr alta_exception world trace)
    = Ok (wcudata3_path date task_id beam_nr)
  /\ location_kind (wcudata3_path date task_id beam_nr) = Some Directory
  /\ wcudata3_path date task_id beam_nr
     = "/altaZone/home/apertif_main/wcudata/WSRTA" ++ str_of date ++ format_0d 3 task_id
       ++ "/WSRTA" ++ str_of date ++ format_0d 3 task_id
       ++ "_B" ++ format_0d 3 beam_nr ++ ".MS".
Proof.
  intros Hd Hn Hor Hw. split; [|split; [apply wcudata3_kind | reflexivity]].
  run_resolver Hw. rewrite Hd. cbn [rbind].
  destruct (Z.ltb_spec n 180216); [lia|].
  assert (E : (n <? 181003) || alta_exception = true).
  { destruct Hor as [Hlt | ->]; [|apply orb_true_r].
    apply orb_true_intro. left. apply Z.ltb_lt. exact Hlt. }
  rewrite E. reflexivity.
Qed.

Lemma from_180216_three_digit_path_witness :
  fst (get_alta_dir (PyInt 180321) 5 35 false (always 0) [])
    = Ok "/altaZone/home/apertif_main/wcudata/WSRTA180321005/WSRTA180321005_B035.MS"
  /\ location_kind "/altaZone/home/apertif_main/wcudata/WSRTA180321005/WSRTA180321005_B035.MS"
     = Some Directory
  /\ wcudata3_path (PyInt 180321) 5 35
     = "/altaZone/home/apertif_main/wcudata/WSRTA180321005/WSRTA180321005_B035.MS".
Proof.
  apply (from_180216_three_digit_path (PyInt 180321) 180321 5 35 false (always 0) [] 0 "0");
    [reflexivity | lia | left; lia | reflexivity].
Defined.

(** Rule 5 and rule 6: past the date rules and the exception key, the
    probe's status decides. *)
Lemma past_exception_key_run
    (date : pyval) (n task_id beam_nr : Z)
    (world : env) (trace : list action) (status : Z) (output : string) :
  plain_date date = Some n -> 181003 <= n -> 0 <= task_id ->
  ~ (n = 190326 /\ task_id = 1) ->
  world trace (stage_probe date task_id beam_nr) = Returned status output ->
  fst (get_alta_dir date task_id beam_nr false world trace)
    = Ok (if status =? 0 then stage_path date task_id beam_nr
          else archive_path date task_id beam_nr).
Proof.
  intros Hd Hn Ht Hkey Hw.
  destruct (plain_date_facts date n Hd) as (_ & Hint & _).
  destruct (composite_key_exception date task_id n Hd Hn Ht) as (key & Ekey & Hiff).
  run_resolver Hw. rewrite Hint. cbn [rbind].
  destruct (Z.ltb_spec n 180216); [lia|].
  destruct (Z.ltb_spec n 181003); [lia|]. cbn [orb].
  rewrite Ekey. cbn [rbind].
  destruct (key =? 190326001) eqn:E; [exfalso; apply Hkey, Hiff; reflexivity|].
  destruct (status =? 0); reflexivity.
Qed.

(** C1: with the legacy flag off, a date from 181003 on and a key other
    than 190326/001, the result is decided by the status of the
    staged-tier probe alone: the staged tarball path (read as a tarball)
    when it is zero, the cold-archive path
    [<root>/<date><task:03d>/WSRTA<date><task:03d>_B<beam:03d>.MS] (read
    as a directory) when it is not. *)
Theorem cutover_staged_or_archive
    (date : pyval) (n task_id beam_nr : Z)
    (world : env) (trace : list action) (status : Z) (output : string) :
  plain_date date = Some n ->
  181003 <= n ->
  0 <= task_id ->
  ~ (n = 190326 /\ task_id = 1) ->
  world trace (stage_probe date task_id beam_nr) = Returned status output ->
  fst (get_alta_dir date task_id beam_nr false world trace)
    = Ok (if status =? 0 then stage_path date task_id beam_nr
          else archive_path date task_id beam_nr)
  /\ location_kind (stage_path date task_id beam_nr) = Some Tarball
  /\ location_kind (archive_path date task_id beam_nr) = Some Directory
  /\ stage_path date task_id beam_nr
     = "/altaZone/stage/apertif_main/visibilities_default/" ++ str_of date
       ++ format_0d 3 task_id ++ "/WSRTA" ++ str_of date ++ format_0d 3 task_id
       ++ "_B" ++ format_0d 3 beam_nr ++ ".MS.tar"
  /\ archive_path date task_id beam_nr
     = "/altaZone/archive/apertif_main/visibilities_default/" ++ str_of date
       ++ format_0d 3 task_id ++ "/WSRTA" ++ str_of date ++ format_0d 3 task_id
       ++ "_B" ++ format_0d 3 beam_nr ++ ".MS".
Proof.
  intros Hd Hn Ht Hkey Hw.
  split; [|split; [apply stage_kind | split; [apply archive_kind | split; reflexivity]]].
  exact (past_exception_key_run date n task_id beam_nr world trace status output
           Hd Hn Ht Hkey Hw).
Qed.

Lemma cutover_staged_or_archive_witness :
  fst (get_alta_dir (PyInt 181205) 5 35 false (always 1) [])
    = Ok "/altaZone/archive/apertif_main/visibilities_default/181205005/WSRTA181205005_B035.MS"
  /\ location_kind (stage_path (PyInt 181205) 5 35) = Some Tarball
  /\ location_kind (archive_path (PyInt 181205) 5 35) = Some Directory
  /\ stage_path (PyInt 181205) 5 35
     = "/altaZone/stage/apertif_main/visibilities_default/181205005/WSRTA181205005_B035.MS.tar"
  /\ archive_path (PyInt 181205) 5 35
     = "/altaZone/archive/apertif_main/visibilities_default/181205005/WSRTA181205005_B035.MS".
Proof.
  apply (cutover_staged_or_archive (PyInt 181205) 181205 5 35 (always 1) [] 1 "0");
    [reflexivity | lia | lia | lia | reflexivity].
Defined.

(** The same key with the probe at status zero: the staged tarball. *)
Lemma cutover_staged_example :
  fst (get_alta_dir (PyInt 181205) 5 35 false (always 0) [])
  = Ok "/altaZone/stage/apertif_main/visibilities_default/181205005/WSRTA181205005_B035.MS.tar".
Proof. reflexivity. Qed.

(** C2 (as amended): on a plain date, a non-negative task id and a probe
    that came back, [get_alta_dir] returns the ingest-tier path exactly
    when the legacy flag is off and the pair (date, task id) is
    190326/001, whatever the probe's status; with the flag set, or for
    any other pair, the ingest-tier path is not returned. *)
Theorem ingest_path_iff_exception_key
    (date : pyval) (n task_id beam_nr : Z) (alta_exception : bool)
    (world : env) (trace : list action) (status : Z) (output : string) :
  plain_date date = Some n ->
  0 <= task_id ->
  world trace (stage_probe date task_id beam_nr) = Returned status output ->
  fst (get_alta_dir date task_id beam_nr alta_exception world trace)
    = Ok (ingest_path date task_id beam_nr)
  <-> alta_exception = false /\ n = 190326 /\ task_id = 1.
Proof.
  intros Hd Ht Hw. destruct (plain_date_facts date n Hd) as (_ & Hint & _).
  run_resolver Hw. rewrite Hint. cbn [rbind].
  destruct (Z.ltb_spec n 180216) as [Hlt | Hge].
  { split; [intros [= E]; destruct (ingest_not_wcudata2 _ _ _ E) | lia]. }
  destruct (Z.ltb_spec n 181003) as [Hlt' | Hge']; cbn [orb].
  { split; [intros [= E]; destruct (ingest_not_wcudata3 _ _ _ E) | lia]. }
  destruct alta_exception.
  { split; [intros [= E]; destruct (ingest_not_wcudata3 _ _ _ E) | intros [? _]; discriminate]. }
  destruct (composite_key_exception date task_id n Hd Hge' Ht) as (key & Ekey & Hiff).
  rewrite Ekey. cbn [rbind].
  destruct (key =? 190326001) eqn:E.
  { split; [intros _; split; [reflexivity | apply Hiff; reflexivity] | reflexivity]. }
  assert (Hno : ~ (n = 190326 /\ task_id = 1)) by (intros K; apply Hiff in K; discriminate).
  destruct (status =? 0).
  - split; [intros [= P]; destruct (ingest_not_stage _ _ _ P) | tauto].
  - split; [intros [= P]; destruct (ingest_not_archive _ _ _ P) | tauto].
Qed.

(** The exception key resolves to the ingest tier although the probe
    found the staged tarball. *)
Lemma ingest_path_iff_exception_key_witness :
  fst (get_alta_dir (PyInt 190326) 1 35 false (always 0) [])
    = Ok (ingest_path (PyInt 190326) 1 35)
  /\ ingest_path (PyInt 190326) 1 35
     = "/altaZone/ingest/apertif_main/visibilities_default/190326001/WSRTA190326001_B035.MS".
Proof.
  split; [|reflexivity].
  apply (ingest_path_iff_exception_key (PyInt 190326) 190326 1 35 false (always 0) [] 0 "0");
    [reflexivity | lia | reflexivity | repeat split].
Defined.

(** C2 as stated fails: with the legacy flag set, the exception key
    190326/001 resolves to the three-digit working-data path, because
    the flag is tested first (line 81). *)
Lemma legacy_flag_precedes_exception_key :
  fst (get_alta_dir (PyInt 190326) 1 35 true (always 0) [])
  = Ok "/altaZone/home/apertif_main/wcudata/WSRTA190326001/WSRTA190326001_B035.MS".
Proof. reflexivity. Qed.

(** C7: every call of [get_alta_dir] performs exactly one action, the
    listing of the staged tarball candidate of its (date, task id, beam),
    whatever the date, the flag, the environment's answer and the rule
    that decides the result. *)
Theorem one_stage_probe_per_call
    (date : pyval) (task_id beam_nr : Z) (alta_exception : bool)
    (world : env) (trace : list action) :
  snd (get_alta_dir date task_id beam_nr alta_exception world trace)
  = (trace ++ [Call (split_ws ("ils " ++ stage_path date task_id beam_nr))])%list.
Proof. rewrite get_alta_dir_run. reflexivity. Qed.

(** C8 (as amended): a listing command that cannot be run at all stops
    the resolution with the exception of the process call itself, and no
    path is returned; a command that runs and comes back with a non-zero
    status, whatever the status stands for, is read as "not staged": all
    non-zero statuses resolve alike, and under rule 6 they select the
    cold-archive path. *)
Theorem nonzero_probe_status_reads_as_not_staged :
  (forall date task_id beam_nr alta_exception world trace e,
      world trace (stage_probe date task_id beam_nr) = Failed e ->
      fst (get_alta_dir date task_id beam_nr alta_exception world trace) = Raise e)
  /\ (forall date task_id beam_nr alta_exception world trace world' trace' s o s' o',
      world trace (stage_probe date task_id beam_nr) = Returned s o ->
      world' trace' (stage_probe date task_id beam_nr) = Returned s' o' ->
      s <> 0 -> s' <> 0 ->
      fst (get_alta_dir date task_id beam_nr alta_exception world trace)
      = fst (get_alta_dir date task_id beam_nr alta_exception world' trace'))
  /\ (forall date n task_id beam_nr world trace s o,
      plain_date date = Some n -> 181003 <= n -> 0 <= task_id ->
      ~ (n = 190326 /\ task_id = 1) ->
      world trace (stage_probe date task_id beam_nr) = Returned s o ->
      s <> 0 ->
      fst (get_alta_dir date task_id beam_nr false world trace)
      = Ok (archive_path date task_id beam_nr)).
Proof.
  split; [|split].
  - intros date task_id beam_nr alta_exception world trace e Hw.
    run_resolver Hw. reflexivity.
  - intros date task_id beam_nr alta_exception world trace world' trace' s o s' o'
      Hw Hw' Hs Hs'.
    rewrite !get_alta_dir_run, Hw, Hw'. cbn [fst].
    apply Z.eqb_neq in Hs, Hs'. rewrite Hs, Hs'. reflexivity.
  - intros date n task_id beam_nr world trace s o Hd Hn Ht Hkey Hw Hs.
    rewrite (past_exception_key_run date n task_id beam_nr world trace s o
               Hd Hn Ht Hkey Hw).
    apply Z.eqb_neq in Hs. rewrite Hs. reflexivity.
Qed.

(** A listing that exits with status 2 at a key of rule 6. *)
Lemma nonzero_probe_status_reads_as_not_staged_witness :
  fst (get_alta_dir (PyInt 181205) 5 35 false (always 2) [])
  = Ok (archive_path (PyInt 181205) 5 35).
Proof.
  apply (proj2 (proj2 nonzero_probe_status_reads_as_not_staged)
           (PyInt 181205) 181205 5 35 (always 2) [] 2 "0");
    [reflexivity | lia | lia | lia | reflexivity | lia].
Defined.

(** C8 as stated fails: no exit status of the listing command makes the
    resolution raise; with status 2, say, the cold-archive path comes
    back as it does when the tarball is reported absent. *)
Lemma failed_listing_selects_archive :
  fst (get_alta_dir (PyInt 181205) 5 35 false (always 2) [])
    = Ok "/altaZone/archive/apertif_main/visibilities_default/181205005/WSRTA181205005_B035.MS"
  /\ (forall status, exists path,
        fst (get_alta_dir (PyInt 181205) 5 35 false (always status) []) = Ok path).
Proof.
  split; [reflexivity|]. intros status.
  rewrite get_alta_dir_run. cbn [always fst].
  destruct (status =? 0); eexists; reflexivity.
Qed.

End Policy.

(** ** getdata_alta *)

Section Transfer.

(** One tarball item when every call succeeds: the tarball is fetched
    to [T.tar], unpacked beside it, the unpacked [.MS] directory renamed
    to [T] and the tarball removed, where [T] is the loop's [targetdir]
    without its last character; and [T] is what the loop carries on. *)
Lemma transfer_item_tarball
    (date : pyval) (n task_id beam_nr : Z) (tmpdir targetdir : string)
    (trace : list action) :
  plain_date date = Some n -> 181003 <= n -> 0 <= task_id ->
  ~ (n = 190326 /\ task_id = 1) ->
  let T := drop_last 1 targetdir in
  let unpacked := path_join (fst (path_split T)) (dataset_name date task_id beam_nr ++ ".MS") in
  transfer_item date tmpdir false beam_nr task_id targetdir (always 0) trace
  = (Ok T,
     (trace ++ [stage_probe date task_id beam_nr;
                CheckCall (iget_cmd tmpdir date task_id beam_nr
                             (stage_path date task_id beam_nr) (T ++ ".tar"));
                System ("tar -xf " ++ T ++ ".tar -C " ++ fst (path_split T));
                Print (fst (path_split T));
                Print unpacked;
                Rename unpacked T;
                Remove (T ++ ".tar")])%list).
Proof.
  intros Hd Hn Ht Hkey T unpacked.
  unfold transfer_item, bind.
  rewrite (surjective_pairing (get_alta_dir date task_id beam_nr false (always 0) trace)).
  rewrite (past_exception_key_run date n task_id beam_nr (always 0) trace 0 "0"
             Hd Hn Ht Hkey eq_refl).
  rewrite get_alta_dir_run. cbn [snd Z.eqb].
  rewrite stage_kind.
  unfold subprocess_check_call, os_system, os_rename, os_remove, print, bind, perform, always.
  cbn [fst snd Z.eqb ret].
  rewrite <- !List.app_assoc. reflexivity.
Qed.

(** X14: a run of tarball items for one beam: every item takes one more
    character off the target name the next item works on, so that after
    as many items as there are task ids the loop holds the target with
    that many characters dropped. *)
Lemma tarball_items_shorten_target
    (date : pyval) (n beam_nr : Z) (tmpdir : string) (task_ids : list Z) :
  plain_date date = Some n -> 181003 <= n ->
  (forall task_id, In task_id task_ids -> 0 <= task_id /\ ~ (n = 190326 /\ task_id = 1)) ->
  forall (targetdir : string) (trace : list action),
  fst (for_each task_ids
         (fun task_id targetdir =>
            transfer_item date tmpdir false beam_nr task_id targetdir)
         targetdir (always 0) trace)
  = Ok (Nat.iter (List.length task_ids) (drop_last 1) targetdir).
Proof.
  intros Hd Hn. induction task_ids as [|task_id rest IH]; intros Hall targetdir trace.
  - reflexivity.
  - destruct (Hall task_id (or_introl eq_refl)) as [Ht Hkey].
    cbn [for_each]. unfold bind at 1.
    rewrite (transfer_item_tarball date n task_id beam_nr tmpdir targetdir trace
               Hd Hn Ht Hkey).
    rewrite IH by (intros t Hin; apply Hall; right; exact Hin).
    cbn [List.length]. rewrite Nat.iter_succ_r. reflexivity.
Qed.

(** C9: the tarball branch reassigns the loop's [targetdir]
    (line 161), so a second tarball item of the same run works on a
    name one character shorter.  With target [/data/x] and two staged
    task ids, the first dataset ends as [/data/x] with [/data/x.tar]
    removed; the second is fetched to [/data/.tar] and renamed to
    [/data/]. *)
Theorem second_tarball_item_misses_target :
  file_operations
    (snd (getdata_alta (PyStr "181205") (Many [5; 6]) (Many [35])
            "/data/x" "/tmp" false false (always 0) []))
  = [Rename "/data/WSRTA181205005_B035.MS" "/data/x"; Remove "/data/x.tar";
     Rename "/data/WSRTA181205006_B035.MS" "/data/"; Remove "/data/.tar"].
Proof. reflexivity. Qed.

(** C10: an int given for the task ids or for the beams is taken as the
    list holding that int: the run is the run on the singleton list. *)
Theorem single_int_is_singleton_list
    (date : pyval) (targetdir tmpdir : string) (alta_exception check_with_rsync : bool)
    (world : env) (trace : list action) :
  (forall t b,
      getdata_alta date (One t) (One b) targetdir tmpdir alta_exception check_with_rsync
        world trace
      = getdata_alta date (Many [t]) (Many [b]) targetdir tmpdir alta_exception
          check_with_rsync world trace)
  /\ (forall t beams,
      getdata_alta date (One t) beams targetdir tmpdir alta_exception check_with_rsync
        world trace
      = getdata_alta date (Many [t]) beams targetdir tmpdir alta_exception
          check_with_rsync world trace)
  /\ (forall task_ids b,
      getdata_alta date task_ids (One b) targetdir tmpdir alta_exception check_with_rsync
        world trace
      = getdata_alta date task_ids (Many [b]) targetdir tmpdir alta_exception
          check_with_rsync world trace).
Proof. repeat split. Qed.

End Transfer.

(** ** More on parse_list *)

Section ParseListMore.

Lemma split_fields_lack c s : Forall (fun f => contains c f = false) (split c s).
Proof.
  induction s as [|x r IH]; [repeat constructor|].
  cbn [split]. destruct (Ascii.eqb x c) eqn:E.
  - constructor; [reflexivity | exact IH].
  - destruct (split c r) as [|field fields]; [repeat constructor; cbn; rewrite E; reflexivity|].
    inversion IH as [|? ? Hf Hfs]; subst. constructor; [|exact Hfs].
    cbn [contains]. rewrite E, Hf. reflexivity.
Qed.

Lemma split_append_sep c a b :
  split c (a ++ String c b) = (split c a ++ split c b)%list.
Proof.
  induction a as [|x r IH].
  - cbn [String.append split app]. rewrite Ascii.eqb_refl. reflexivity.
  - cbn [String.append split]. rewrite IH. destruct (Ascii.eqb x c); [reflexivity|].
    destruct (split c r) as [|field fields] eqn:E; [|reflexivity].
    destruct r; cbn in E; [discriminate|].
    destruct (Ascii.eqb _ c); [discriminate|]. destruct (split c r); discriminate.
Qed.

Lemma contains_lstrip space c s :
  contains c (lstrip space s) = true -> contains c s = true.
Proof.
  induction s as [|x r IH]; [auto|]. cbn [lstrip].
  destruct (space x); [|auto]. intros H. cbn [contains]. rewrite (IH H). apply orb_true_r.
Qed.

Lemma contains_rstrip space c s :
  contains c (rstrip space s) = true -> contains c s = true.
Proof.
  induction s as [|x r IH]; [auto|]. cbn [rstrip].
  destruct (is_empty (rstrip space r) && space x); [discriminate|].
  cbn [contains]. intros H. apply orb_prop in H as [H | H].
  - rewrite H. reflexivity.
  - rewrite (IH H). apply orb_true_r.
Qed.

Lemma int_digits_nonneg s : forall acc after v,
  0 <= acc -> int_digits acc after s = Some v -> 0 <= v.
Proof.
  induction s as [|c r IH]; intros acc after v Hacc; cbn [int_digits].
  - destruct after; [intros [= <-]; exact Hacc | discriminate].
  - destruct (is_digit c) eqn:Hc.
    + apply IH. pose proof (is_digit_value c Hc). lia.
    + destruct (Ascii.eqb c "_"); [|discriminate].
      destruct after; [apply IH; exact Hacc | discriminate].
Qed.

(** Without a minus sign in the text, [int] gives no negative number. *)
Lemma int_of_str_nonneg s v : contains "-" s = false -> int_of_str s = Ok v -> 0 <= v.
Proof.
  intros Hs. unfold int_of_str.
  assert (Hb : contains "-" (strip is_int_space s) = false).
  { destruct (contains "-" (strip is_int_space s)) eqn:E; [|reflexivity].
    unfold strip in E. apply contains_rstrip, contains_lstrip in E. congruence. }
  destruct (strip is_int_space s) as [|c r].
  - cbn. discriminate.
  - cbn [contains] in Hb. apply orb_false_elim in Hb as [Hc _].
    apply Ascii.eqb_neq in Hc.
    destruct c as [[] [] [] [] [] [] [] []]; try congruence;
      cbv beta iota;
      match goal with
      | |- match int_digits 0 false ?d with _ => _ end = _ -> _ =>
          destruct (int_digits 0 false d) as [w|] eqn:E; [|discriminate];
          intros [= <-]; apply (int_digits_nonneg _ _ _ _ (Z.le_refl 0) E)
      end.
Qed.

Lemma range_bounds lo hi x : In x (range lo hi) -> lo <= x < hi.
Proof.
  unfold range. rewrite in_map_iff. intros (i & <- & Hi). apply in_seq in Hi. lia.
Qed.

Lemma parse_parts_nonneg parts : forall ret_list l,
  Forall (fun x => 0 <= x) ret_list ->
  parse_parts parts ret_list = Ok l -> Forall (fun x => 0 <= x) l.
Proof.
  induction parts as [|spec_part rest IH]; intros ret_list l Hacc; cbn [parse_parts].
  - intros [= <-]. exact Hacc.
  - destruct (contains "-" spec_part) eqn:Hc.
    + pose proof (split_fields_lack "-" spec_part) as Hlack.
      destruct (split "-" spec_part) as [|begin_ [|end_ [|x fields]]]; try discriminate.
      destruct (String.ltb end_ begin_); [discriminate|].
      inversion Hlack as [|? ? Hb Hrest]; subst. inversion Hrest as [|? ? He _]; subst.
      destruct (int_of_str begin_) as [b|] eqn:Eb; [|discriminate].
      destruct (int_of_str end_) as [e|] eqn:Ee; [|discriminate].
      cbn [rbind]. apply IH. apply Forall_app. split; [exact Hacc|].
      apply Forall_forall. intros x Hx. apply range_bounds in Hx.
      pose proof (int_of_str_nonneg _ _ Hb Eb). lia.
    + destruct (int_of_str spec_part) as [n|] eqn:En; [|discriminate].
      cbn [rbind]. apply IH. apply Forall_app. split; [exact Hacc|].
      repeat constructor. exact (int_of_str_nonneg _ _ Hc En).
Qed.

(** X1: [parse_list] never yields a negative number: a hyphen always
    separates begin from end, so no field that reaches [int] carries a
    minus sign. *)
Theorem parse_list_nonnegative (spec : string) (l : list Z) :
  parse_list spec = Ok l -> Forall (fun x => 0 <= x) l.
Proof. apply parse_parts_nonneg. constructor. Qed.

Lemma parse_list_nonnegative_witness :
  Forall (fun x => 0 <= x) [3; 4; 5; 1].
Proof. apply (parse_list_nonnegative "3-5,1"). reflexivity. Defined.

Lemma parse_parts_ret_list parts : forall ret_list,
  parse_parts parts ret_list
  = rbind (parse_parts parts []) (fun l => Ok (ret_list ++ l)%list).
Proof.
  induction parts as [|spec_part rest IH]; intros ret_list; cbn [parse_parts].
  - cbn. rewrite app_nil_r. reflexivity.
  - destruct (contains "-" spec_part).
    + destruct (split "-" spec_part) as [|begin_ [|end_ [|x fields]]]; try reflexivity.
      destruct (String.ltb end_ begin_); [reflexivity|].
      destruct (int_of_str begin_) as [b|]; [|reflexivity].
      destruct (int_of_str end_) as [e|]; [|reflexivity]. cbn [rbind app].
      rewrite (IH (ret_list ++ range b (e + 1))%list).
      rewrite (IH ([] ++ range b (e + 1))%list).
      destruct (parse_parts rest []); [|reflexivity].
      cbn [rbind]. rewrite List.app_assoc. reflexivity.
    + destruct (int_of_str spec_part) as [n|]; [|reflexivity]. cbn [rbind app].
      rewrite (IH (ret_list ++ [n])%list).
      rewrite (IH ([] ++ [n])%list).
      destruct (parse_parts rest []); [|reflexivity].
      cbn [rbind]. rewrite <- List.app_assoc. reflexivity.
Qed.

Lemma parse_parts_append p1 p2 : forall ret_list,
  parse_parts (p1 ++ p2) ret_list
  = rbind (parse_parts p1 ret_list) (fun l => parse_parts p2 l).
Proof.
  induction p1 as [|spec_part rest IH]; intros ret_list; [reflexivity|].
  change ((spec_part :: rest) ++ p2)%list with (spec_part :: (rest ++ p2))%list.
  cbn [parse_parts]. destruct (contains "-" spec_part).
  - destruct (split "-" spec_part) as [|begin_ [|end_ [|x fields]]]; try reflexivity.
    destruct (String.ltb end_ begin_); [reflexivity|].
    destruct (int_of_str begin_) as [b|]; [|reflexivity].
    destruct (int_of_str end_) as [e|]; [|reflexivity]. cbn [rbind]. apply IH.
  - destruct (int_of_str spec_part) as [n|]; [|reflexivity]. cbn [rbind]. apply IH.
Qed.

(** X2: a specification joined from two by a comma parses to the two
    results one after the other, order and repetitions kept; when a
    part is refused, the exception of the first refused part comes out. *)
Theorem parse_list_comma (spec1 spec2 : string) :
  parse_list (spec1 ++ "," ++ spec2)
  = rbind (parse_list spec1) (fun l1 =>
    rbind (parse_list spec2) (fun l2 => Ok (l1 ++ l2)%list)).
Proof.
  unfold parse_list. change (spec1 ++ "," ++ spec2) with (spec1 ++ String "," spec2).
  rewrite split_append_sep, parse_parts_append.
  destruct (parse_parts (split "," spec1) []) as [l1|e]; [|reflexivity].
  cbn [rbind]. apply parse_parts_ret_list.
Qed.

(** X3: written with one width, as the usage prescribes (NNN-NNN), a
    pair is refused exactly when its end is the smaller number, and
    otherwise parses to the integers from begin to end inclusive. *)
Theorem parse_list_same_width_pair (a b : string) :
  is_number a = true -> is_number b = true -> String.length a = String.length b ->
  parse_list (a ++ "-" ++ b)
  = (if digits_val b <? digits_val a
     then Raise (EndSmallerThanBegin (a ++ "-" ++ b))
     else Ok (inclusive (digits_val a) (digits_val b)))
  /\ (forall x, In x (inclusive (digits_val a) (digits_val b))
                <-> digits_val a <= x <= digits_val b).
Proof.
  intros Ha Hb Hlen. split; [|intros x; apply inclusive_spec].
  rewrite (parse_list_pair a b Ha Hb), (same_width_ltb a b Ha Hb Hlen). reflexivity.
Qed.

Lemma parse_list_same_width_pair_witness :
  parse_list "004-010" = Ok [4; 5; 6; 7; 8; 9; 10]
  /\ (forall x, In x (inclusive 4 10) <-> 4 <= x <= 10).
Proof.
  apply (parse_list_same_width_pair "004" "010"); reflexivity.
Defined.


End ParseListMore.

(** ** More on get_alta_dir *)

Section ResolverMore.

(** X5: every path [get_alta_dir] returns is one the transfer loop can
    read: a tarball exactly when it is the staged path that was probed,
    a directory otherwise; the loop's remaining case, in which an item
    would be skipped without a word, never arises. *)
Theorem resolved_path_has_a_kind
    (date : pyval) (task_id beam_nr : Z) (alta_exception : bool)
    (world : env) (trace : list action) (path : string) :
  fst (get_alta_dir date task_id beam_nr alta_exception world trace) = Ok path ->
  location_kind path
  = Some (if String.eqb path (stage_path date task_id beam_nr) then Tarball else Directory).
Proof.
  rewrite get_alta_dir_run. cbn [fst].
  assert (D : forall p, location_kind p = Some Directory ->
              location_kind p
              = Some (if String.eqb p (stage_path date task_id beam_nr)
                      then Tarball else Directory)).
  { intros p Hp. destruct (String.eqb_spec p (stage_path date task_id beam_nr)) as [E|];
      [|exact Hp]. rewrite E, stage_kind in Hp. discriminate. }
  destruct (world trace _) as [status output | e]; [|discriminate].
  destruct (int_of date) as [d | e]; [|discriminate]. cbn [rbind].
  destruct (d <? 180216); [intros [= <-]; apply D, wcudata2_kind|].
  destruct ((d <? 181003) || alta_exception); [intros [= <-]; apply D, wcudata3_kind|].
  destruct (composite_key date task_id) as [key | e]; [|discriminate]. cbn [rbind].
  destruct (key =? 190326001); [intros [= <-]; apply D, ingest_kind|].
  destruct (status =? 0); intros [= <-].
  - rewrite String.eqb_refl. apply stage_kind.
  - apply D, archive_kind.
Qed.

Lemma resolved_path_has_a_kind_witness :
  location_kind (archive_path (PyInt 181205) 5 35)
  = Some (if String.eqb (archive_path (PyInt 181205) 5 35) (stage_path (PyInt 181205) 5 35)
          then Tarball else Directory).
Proof.
  apply (resolved_path_has_a_kind (PyInt 181205) 5 35 false (always 1) []). reflexivity.
Defined.

Lemma rstrip_digits_then d space x r :
  all_digits d = true -> space x = false ->
  rstrip space (d ++ String x r) = d ++ String x (rstrip space r).
Proof.
  intros Hd Hx. induction d as [|c q IH].
  - cbn [String.append rstrip]. rewrite Hx, andb_false_r. reflexivity.
  - cbn [all_digits] in Hd. apply andb_prop in Hd as [_ Hq].
    cbn [String.append rstrip]. rewrite (IH Hq).
    destruct q; reflexivity.
Qed.

Lemma int_digits_stops d x r : forall acc after,
  all_digits d = true -> is_digit x = false -> Ascii.eqb x "_" = false ->
  int_digits acc after (d ++ String x r) = None.
Proof.
  induction d as [|c q IH]; intros acc after Hd Hx Hu.
  - cbn [String.append int_digits]. rewrite Hx, Hu. reflexivity.
  - cbn [all_digits] in Hd. apply andb_prop in Hd as [Hc Hq].
    cbn [String.append int_digits]. rewrite Hc. apply IH; assumption.
Qed.

(** A number followed by a minus sign is no literal for [int]. *)
Lemma int_of_str_inner_minus d r : is_number d = true ->
  int_of_str (d ++ String "-" r) = Raise (InvalidLiteral (d ++ String "-" r)).
Proof.
  unfold is_number. intros H. apply andb_prop in H as [Hne Hd].
  unfold int_of_str, strip.
  assert (L : lstrip is_int_space (d ++ String "-" r) = d ++ String "-" r).
  { destruct d as [|c q]; [discriminate|]. cbn [all_digits] in Hd.
    apply andb_prop in Hd as [Hc _]. cbn [String.append lstrip].
    rewrite (is_digit_not_int_space c Hc). reflexivity. }
  rewrite L, (rstrip_digits_then d is_int_space "-" r Hd eq_refl).
  destruct d as [|c q]; [discriminate|].
  assert (Hc : is_digit c = true) by (cbn in Hd; apply andb_prop in Hd; tauto).
  assert (Hq : all_digits q = true) by (cbn in Hd; apply andb_prop in Hd; tauto).
  cbn [String.append].
  assert (M : match String c (q ++ String "-" (rstrip is_int_space r)) with
              | String "-" r0 => (true, r0)
              | String "+" r0 => (false, r0)
              | _ => (false, String c (q ++ String "-" (rstrip is_int_space r)))
              end = (false, String c (q ++ String "-" (rstrip is_int_space r)))).
  { assert (Hm : c <> "-"%char) by (intros ->; discriminate).
    assert (Hp : c <> "+"%char) by (intros ->; discriminate).
    destruct c as [[] [] [] [] [] [] [] []]; try reflexivity; congruence. }
  rewrite M. cbn [int_digits]. rewrite Hc.
  rewrite int_digits_stops by auto. reflexivity.
Qed.

(** X6: from the cutover date on, with the legacy flag off, a negative
    task id makes [get_alta_dir] raise the ValueError of [int] on the
    key of line 83, once the probe has been made; no path comes back. *)
Theorem negative_task_id_raises_past_cutover
    (date : pyval) (n task_id beam_nr : Z)
    (world : env) (trace : list action) (status : Z) (output : string) :
  plain_date date = Some n ->
  181003 <= n ->
  task_id < 0 ->
  world trace (stage_probe date task_id beam_nr) = Returned status output ->
  get_alta_dir date task_id beam_nr false world trace
  = (Raise (InvalidLiteral (str_of date ++ percent_dot_d 3 task_id)),
     (trace ++ [stage_probe date task_id beam_nr])%list).
Proof.
  intros Hd Hn Ht Hw. destruct (plain_date_facts date n Hd) as (_ & Hint & Hnum & _).
  rewrite get_alta_dir_run, Hw, Hint. cbn [rbind].
  destruct (Z.ltb_spec n 180216); [lia|].
  destruct (Z.ltb_spec n 181003); [lia|]. cbn [orb].
  unfold composite_key, percent_dot_d. destruct (Z.ltb_spec task_id 0); [|lia].
  rewrite int_of_str_inner_minus by assumption. reflexivity.
Qed.

Lemma negative_task_id_raises_past_cutover_witness :
  get_alta_dir (PyInt 181205) (-1) 35 false (always 1) []
  = (Raise (InvalidLiteral "181205-001"),
     [Call ["ils";
            "/altaZone/stage/apertif_main/visibilities_default/181205-01/WSRTA181205-01_B035.MS.tar"]]).
Proof.
  apply (negative_task_id_raises_past_cutover (PyInt 181205) 181205 (-1) 35 (always 1) [] 1 "0");
    [reflexivity | lia | lia | reflexivity].
Defined.

Lemma append_cancel_l s x y : s ++ x = s ++ y -> x = y.
Proof. induction s as [|c r IH]; [auto|]. cbn [String.append]. intros [= H]. auto. Qed.

Lemma append_cancel_r s : forall x y, x ++ s = y ++ s -> x = y.
Proof.
  assert (G : forall x y, String.length x = String.length y -> x ++ s = y ++ s -> x = y).
  { induction x as [|u r IH]; intros [|u' r'] L E; try discriminate L; [reflexivity|].
    cbn [String.append] in E. injection E as -> E. injection L as L.
    f_equal. apply IH; assumption. }
  intros x y E. apply G; [|exact E].
  apply (f_equal String.length) in E. rewrite !length_append in E. lia.
Qed.

(** Two texts that agree up to their first [c] agree before and after it. *)
Lemma append_split_at c a a' x y :
  contains c a = false -> contains c a' = false ->
  a ++ String c x = a' ++ String c y -> a = a' /\ x = y.
Proof.
  revert a'. induction a as [|u r IH]; intros [|u' r']; cbn [String.append contains].
  - intros _ _ [= ->]. auto.
  - intros _ H [= <- _]. rewrite Ascii.eqb_refl in H. discriminate.
  - intros H _ [= -> _]. rewrite Ascii.eqb_refl in H. discriminate.
  - intros H H' [= -> E]. apply orb_false_elim in H as [_ H], H' as [_ H'].
    destruct (IH r' H H' E) as [-> ->]. auto.
Qed.

Lemma zero_filled_abs w n :
  is_number (zero_filled w n) = true /\ digits_val (zero_filled w n) = Z.abs n.
Proof.
  destruct (zero_filled_number w (Z.abs n) (Z.abs_nonneg n)) as (H1 & H2 & _).
  unfold zero_filled in *. rewrite Z.abs_idemp in H1, H2. auto.
Qed.

Lemma format_0d_inj w n m : format_0d w n = format_0d w m -> n = m.
Proof.
  unfold format_0d.
  destruct (zero_filled_abs w n) as [Nn Vn]. destruct (zero_filled_abs w m) as [Nm Vm].
  destruct (zero_filled_abs (w - 1) n) as [Nn' Vn'].
  destruct (zero_filled_abs (w - 1) m) as [Nm' Vm'].
  destruct (Z.ltb_spec n 0), (Z.ltb_spec m 0); intros E.
  - injection E as E. rewrite E in Vn'. lia.
  - rewrite <- E in Nm. discriminate.
  - rewrite E in Nn. discriminate.
  - rewrite E in Vn. lia.
Qed.

Lemma format_0d_lacks c w n :
  is_digit c = false -> Ascii.eqb "-" c = false -> contains c (format_0d w n) = false.
Proof.
  intros Hc Hm. unfold format_0d.
  assert (Z : forall k, contains c (zero_filled k n) = false).
  { intros k. destruct (zero_filled_abs k n) as [H _]. unfold is_number in H.
    apply andb_prop in H as [_ H]. apply digits_lack; assumption. }
  destruct (n <? 0); [cbn [contains]; rewrite Hm|]; apply Z.
Qed.

(** All the names built from a date, a task id and a beam have one
    shape, in which the task id ends at a slash or an underscore and the
    beam at a dot or the end: the two can be read back. *)
Lemma name_shape_inj root date w sep rest t b t' b' :
  is_digit sep = false -> Ascii.eqb "-" sep = false ->
  root ++ str_of date ++ format_0d w t ++ String sep (rest ++ format_0d 3 b)
  = root ++ str_of date ++ format_0d w t' ++ String sep (rest ++ format_0d 3 b') ->
  t = t' /\ b = b'.
Proof.
  intros Hs Hm E. apply append_cancel_l, append_cancel_l in E.
  apply append_split_at in E; try (apply format_0d_lacks; assumption).
  destruct E as [Et Eb]. apply format_0d_inj in Et. apply append_cancel_l in Eb.
  apply format_0d_inj in Eb. auto.
Qed.

(** X7: for one date, the name of a dataset (under which its restart
    files and its unpacked directory are kept) and its staged and
    cold-archive paths tell the task id and the beam apart: two items of
    a run never share a name or a path. *)
Theorem names_tell_items_apart (date : pyval) (t b t' b' : Z) :
  (dataset_name date t b = dataset_name date t' b' <-> t = t' /\ b = b')
  /\ (stage_path date t b = stage_path date t' b' <-> t = t' /\ b = b')
  /\ (archive_path date t b = archive_path date t' b' <-> t = t' /\ b = b').
Proof.
  assert (P : forall root suffix,
             root ++ str_of date ++ format_0d 3 t
               ++ "/WSRTA" ++ str_of date ++ format_0d 3 t ++ "_B" ++ format_0d 3 b ++ suffix
             = root ++ str_of date ++ format_0d 3 t'
               ++ "/WSRTA" ++ str_of date ++ format_0d 3 t' ++ "_B" ++ format_0d 3 b' ++ suffix
             -> t = t' /\ b = b').
  { intros root suffix E. apply append_cancel_l, append_cancel_l in E.
    apply append_split_at in E; try (apply format_0d_lacks; reflexivity).
    destruct E as [Et E]. apply format_0d_inj in Et. subst t'. split; [reflexivity|].
    repeat first [apply append_cancel_l in E | injection E as E].
    apply append_cancel_r in E. apply format_0d_inj in E. exact E. }
  split; [|split]; (split; [|intros [-> ->]; reflexivity]).
  - unfold dataset_name. intros E.
    apply (name_shape_inj "WSRTA" date 3 "_" "B" t b t' b'); [reflexivity | reflexivity|].
    exact E.
  - apply (P "/altaZone/stage/apertif_main/visibilities_default/" ".MS.tar").
  - apply (P "/altaZone/archive/apertif_main/visibilities_default/" ".MS").
Qed.

End ResolverMore.

(** ** getstatus_alta *)

Section Status.

(** X8: from the cutover date on, for a key other than 190326/001 and
    an environment that lists one path the same way every time,
    [getstatus_alta] says "available" exactly when the staged tarball or
    the cold-archive directory is listed with status zero. *)
Theorem getstatus_alta_staged_or_archived
    (date : pyval) (n task_id beam : Z) (world : env) (trace : list action)
    (staged archived : Z) (out out' : string) :
  stateless world ->
  plain_date date = Some n ->
  181003 <= n ->
  0 <= task_id ->
  ~ (n = 190326 /\ task_id = 1) ->
  world [] (Call (split_ws ("ils " ++ stage_path date task_id beam))) = Returned staged out ->
  world [] (Call (split_ws ("ils " ++ archive_path date task_id beam))) = Returned archived out' ->
  fst (getstatus_alta date task_id beam world trace)
  = Ok ((staged =? 0) || (archived =? 0)).
Proof.
  intros Hs Hd Hn Ht Hkey Hst Har.
  assert (Hw : world trace (stage_probe date task_id beam) = Returned staged out)
    by (rewrite (Hs trace []); exact Hst).
  unfold getstatus_alta, bind.
  rewrite (surjective_pairing (get_alta_dir date task_id beam false world trace)).
  rewrite (past_exception_key_run date n task_id beam world trace staged out
             Hd Hn Ht Hkey Hw).
  unfold subprocess_call, bind, perform.
  destruct (staged =? 0) eqn:E.
  - rewrite (Hs _ []), Hst. cbn [ret fst]. rewrite E. reflexivity.
  - rewrite (Hs _ []), Har. reflexivity.
Qed.

Lemma getstatus_alta_staged_or_archived_witness :
  fst (getstatus_alta (PyInt 181205) 5 35 (always 0) []) = Ok ((0 =? 0) || (0 =? 0)).
Proof.
  apply (getstatus_alta_staged_or_archived (PyInt 181205) 181205 5 35 (always 0) [] 0 0 "0" "0");
    [intros tr tr' a; reflexivity | reflexivity | lia | lia | lia | reflexivity | reflexivity].
Defined.

End Status.

(** ** More on getdata_alta *)

Section TransferMore.

Variables (date : pyval) (n : Z) (alta_exception : bool).
Hypothesis date_is : int_of date = Ok n.
Hypothesis online : n < 181003 \/ alta_exception = true.

(** Before the cutover, or under the legacy flag, a probe that comes
    back leaves the working-data path, whatever its status. *)
Lemma get_alta_dir_online task_id beam_nr world trace status output :
  world trace (stage_probe date task_id beam_nr) = Returned status output ->
  get_alta_dir date task_id beam_nr alta_exception world trace
  = (Ok (online_path date n task_id beam_nr),
     (trace ++ [stage_probe date task_id beam_nr])%list).
Proof.
  intros Hw. rewrite get_alta_dir_run, Hw, date_is. cbn [rbind]. unfold online_path.
  destruct (Z.ltb_spec n 180216); [reflexivity|].
  assert (E : (n <? 181003) || alta_exception = true).
  { destruct online as [Hlt | ->]; [|apply orb_true_r].
    apply orb_true_intro. left. apply Z.ltb_lt. exact Hlt. }
  rewrite E. reflexivity.
Qed.

Lemma online_kind task_id beam_nr :
  location_kind (online_path date n task_id beam_nr) = Some Directory.
Proof. unfold online_path. destruct (n <? 180216); [apply wcudata2_kind | apply wcudata3_kind]. Qed.

(** One directory item: the probe, then one [iget] into the target. *)
Lemma transfer_item_directory tmpdir targetdir beam_nr task_id world trace s o c o' :
  world trace (stage_probe date task_id beam_nr) = Returned s o ->
  world (trace ++ [stage_probe date task_id beam_nr])%list
    (CheckCall (iget_cmd tmpdir date task_id beam_nr
                  (online_path date n task_id beam_nr) targetdir)) = Returned c o' ->
  transfer_item date tmpdir alta_exception beam_nr task_id targetdir world trace
  = (if c =? 0 then Ok targetdir
     else Raise (CalledProcessError c
                   (iget_cmd tmpdir date task_id beam_nr
                      (online_path date n task_id beam_nr) targetdir)),
     (trace ++ directory_item date n tmpdir targetdir beam_nr task_id)%list).
Proof.
  intros Hw Hc. unfold transfer_item, bind at 1.
  rewrite (get_alta_dir_online _ _ _ _ _ _ Hw), online_kind.
  unfold subprocess_check_call, bind, perform. rewrite Hc. cbn [fst].
  unfold directory_item. rewrite <- List.app_assoc. cbn [app].
  destruct (c =? 0); reflexivity.
Qed.

Section Obliging.

(** An environment in which every listing comes back and every fetch
    and shell command succeeds. *)
Variable world : env.
Hypothesis listings : forall trace argv, exists s o, world trace (Call argv) = Returned s o.
Hypothesis fetches : forall trace cmd, exists o, world trace (CheckCall cmd) = Returned 0 o.

Lemma directory_tasks tmpdir targetdir beam_nr task_ids : forall trace,
  for_each task_ids
    (fun task_id targetdir =>
       transfer_item date tmpdir alta_exception beam_nr task_id targetdir)
    targetdir world trace
  = (Ok targetdir,
     (trace ++ flat_map (directory_item date n tmpdir targetdir beam_nr) task_ids)%list).
Proof.
  induction task_ids as [|task_id rest IH]; intros trace.
  - cbn. rewrite app_nil_r. reflexivity.
  - destruct (listings trace (split_ws ("ils " ++ stage_path date task_id beam_nr)))
      as (s & o & Hw).
    destruct (fetches (trace ++ [stage_probe date task_id beam_nr])%list
                (iget_cmd tmpdir date task_id beam_nr
                   (online_path date n task_id beam_nr) targetdir)) as (o' & Hc).
    cbn [for_each flat_map]. unfold bind at 1.
    rewrite (transfer_item_directory _ _ _ _ _ _ _ _ _ _ Hw Hc). cbn [Z.eqb].
    rewrite IH, <- List.app_assoc. reflexivity.
Qed.

Lemma directory_beams tmpdir targetdir task_ids beams : forall trace,
  for_each beams
    (fun beam_nr targetdir =>
       for_each task_ids
         (fun task_id targetdir =>
            transfer_item date tmpdir alta_exception beam_nr task_id targetdir)
         targetdir)
    targetdir world trace
  = (Ok targetdir,
     (trace ++ flat_map (fun beam_nr =>
                 flat_map (directory_item date n tmpdir targetdir beam_nr) task_ids)
                beams)%list).
Proof.
  induction beams as [|beam_nr rest IH]; intros trace.
  - cbn. rewrite app_nil_r. reflexivity.
  - cbn [for_each flat_map]. unfold bind at 1.
    rewrite directory_tasks, IH, <- List.app_assoc. reflexivity.
Qed.

End Obliging.

End TransferMore.

Section TransferRuns.

Lemma with_slash_unfolded d :
  (if String.eqb (last_chars 1 (if is_empty d then "." else d)) "/"
   then (if is_empty d then "." else d)
   else (if is_empty d then "." else d) ++ "/") = with_slash d.
Proof. reflexivity. Qed.

Ltac expose_dirs := unfold getdata_alta; cbv zeta; rewrite !with_slash_unfolded.

(** X9: before the cutover date, or under the legacy flag, a run whose
    listings come back and whose commands succeed performs, beam by beam
    and within a beam task id by task id, one probe and one [iget] into
    the target directory for every pair, and then the sweep of the
    restart files: nothing else, and nothing twice. *)
Theorem directory_run_in_beam_major_order
    (date : pyval) (n : Z) (alta_exception : bool) (task_ids beams : ints)
    (targetdir tmpdir : string) (world : env) (trace : list action) :
  int_of date = Ok n ->
  n < 181003 \/ alta_exception = true ->
  (forall trace argv, exists s o, world trace (Call argv) = Returned s o) ->
  (forall trace cmd, exists o, world trace (CheckCall cmd) = Returned 0 o) ->
  (forall trace cmd, exists s o, world trace (System cmd) = Returned s o) ->
  getdata_alta date task_ids beams targetdir tmpdir alta_exception false world trace
  = (Ok tt,
     (trace
      ++ flat_map (fun beam_nr =>
           flat_map (directory_item date n (with_slash tmpdir) (with_slash targetdir) beam_nr)
             (as_list task_ids))
           (as_list beams)
      ++ [sweep (with_slash tmpdir)])%list).
Proof.
  intros Hd Hon Hcall Hcheck Hsys. expose_dirs. unfold bind at 1.
  rewrite (directory_beams date n alta_exception Hd Hon world Hcall Hcheck).
  unfold os_system, bind, perform. fold (sweep (with_slash tmpdir)).
  destruct (Hsys (trace ++ flat_map (fun beam_nr =>
                    flat_map (directory_item date n (with_slash tmpdir)
                                (with_slash targetdir) beam_nr) (as_list task_ids))
                    (as_list beams))%list
              ("rm -rf " ++ with_slash tmpdir ++ "*irods-status")) as (s & o & E).
  unfold sweep. rewrite E. cbn [ret]. rewrite <- List.app_assoc. reflexivity.
Qed.

Lemma directory_run_in_beam_major_order_witness :
  getdata_alta (PyStr "180321") (Many [4; 5]) (Many [0; 1]) "/data" "/tmp" false false
    (always 0) []
  = (Ok tt,
     ([]
      ++ flat_map (fun beam_nr =>
           flat_map (directory_item (PyStr "180321") 180321 (with_slash "/tmp")
                       (with_slash "/data") beam_nr)
             (as_list (Many [4; 5])))
           (as_list (Many [0; 1]))
      ++ [sweep (with_slash "/tmp")])%list).
Proof.
  apply (directory_run_in_beam_major_order (PyStr "180321") 180321 false
           (Many [4; 5]) (Many [0; 1]) "/data" "/tmp" (always 0) []);
    [reflexivity | left; lia
     | intros tr a; exists 0, "0"; reflexivity
     | intros tr a; exists "0"; reflexivity
     | intros tr a; exists 0, "0"; reflexivity].
Defined.

(** X10: a fetch that fails ends the whole run at once.  Before the
    cutover date, or under the legacy flag, when the [iget] of the first
    item exits with a non-zero status, [getdata_alta] raises
    CalledProcessError with that status and command after the probe and
    the fetch: no other item is tried and the restart files are not
    swept. *)
Theorem first_failed_fetch_ends_the_run
    (date : pyval) (n : Z) (alta_exception check_with_rsync : bool)
    (task_ids beams : ints) (task_id beam_nr : Z) (more_tasks more_beams : list Z)
    (targetdir tmpdir : string) (world : env) (trace : list action)
    (s c : Z) (o o' : string) :
  int_of date = Ok n ->
  n < 181003 \/ alta_exception = true ->
  as_list task_ids = task_id :: more_tasks ->
  as_list beams = beam_nr :: more_beams ->
  world trace (stage_probe date task_id beam_nr) = Returned s o ->
  world (trace ++ [stage_probe date task_id beam_nr])%list
    (CheckCall (iget_cmd (with_slash tmpdir) date task_id beam_nr
                  (online_path date n task_id beam_nr) (with_slash targetdir)))
  = Returned c o' ->
  c <> 0 ->
  getdata_alta date task_ids beams targetdir tmpdir alta_exception check_with_rsync
    world trace
  = (Raise (CalledProcessError c
              (iget_cmd (with_slash tmpdir) date task_id beam_nr
                 (online_path date n task_id beam_nr) (with_slash targetdir))),
     (trace ++ directory_item date n (with_slash tmpdir) (with_slash targetdir)
                 beam_nr task_id)%list).
Proof.
  intros Hd Hon Ht Hb Hw Hc Hne. expose_dirs. rewrite Ht, Hb.
  cbn [for_each]. unfold bind.
  rewrite (transfer_item_directory date n alta_exception Hd Hon _ _ _ _ _ _ _ _ _ _ Hw Hc).
  apply Z.eqb_neq in Hne. rewrite Hne. reflexivity.
Qed.

Lemma first_failed_fetch_ends_the_run_witness :
  getdata_alta (PyStr "180321") (Many [4; 5]) (Many [0; 1]) "/data" "/tmp" false true
    (always 3) []
  = (Raise (CalledProcessError 3
              (iget_cmd (with_slash "/tmp") (PyStr "180321") 4 0
                 (online_path (PyStr "180321") 180321 4 0) (with_slash "/data"))),
     ([] ++ directory_item (PyStr "180321") 180321 (with_slash "/tmp") (with_slash "/data")
              0 4)%list).
Proof.
  apply (first_failed_fetch_ends_the_run (PyStr "180321") 180321 false true
           (Many [4; 5]) (Many [0; 1]) 4 0 [5] [1] "/data" "/tmp" (always 3) [] 3 3 "0" "0");
    [reflexivity | left; lia | reflexivity | reflexivity | reflexivity | reflexivity | lia].
Defined.

(** X11: a date that [int] refuses is found out only after the first
    probe has gone to the archive: the run raises the ValueError of
    [int] with that one listing performed and nothing transferred. *)
Theorem malformed_date_raises_after_first_probe
    (date : pyval) (e : exn) (alta_exception check_with_rsync : bool)
    (task_ids beams : ints) (task_id beam_nr : Z) (more_tasks more_beams : list Z)
    (targetdir tmpdir : string) (world : env) (trace : list action)
    (s : Z) (o : string) :
  int_of date = Raise e ->
  as_list task_ids = task_id :: more_tasks ->
  as_list beams = beam_nr :: more_beams ->
  world trace (stage_probe date task_id beam_nr) = Returned s o ->
  getdata_alta date task_ids beams targetdir tmpdir alta_exception check_with_rsync
    world trace
  = (Raise e, (trace ++ [stage_probe date task_id beam_nr])%list)
  /\ is_ValueError e = true.
Proof.
  intros Hd Ht Hb Hw. split.
  - expose_dirs. rewrite Ht, Hb. cbn [for_each]. unfold bind, transfer_item, bind.
    rewrite get_alta_dir_run, Hw, Hd. reflexivity.
  - destruct date as [m | text]; [discriminate|]. cbn [int_of] in Hd.
    rewrite (int_of_str_raises _ _ Hd). reflexivity.
Qed.

Lemma malformed_date_raises_after_first_probe_witness :
  getdata_alta (PyStr "2018-03-21") (Many [4; 5]) (One 0) "." "." false true (always 0) []
  = (Raise (InvalidLiteral "2018-03-21"),
     ([] ++ [stage_probe (PyStr "2018-03-21") 4 0])%list)
  /\ is_ValueError (InvalidLiteral "2018-03-21") = true.
Proof.
  apply (malformed_date_raises_after_first_probe (PyStr "2018-03-21")
           (InvalidLiteral "2018-03-21") false true (Many [4; 5]) (One 0) 4 0 [5] []
           "." "." (always 0) [] 0 "0"); reflexivity.
Defined.

Lemma tarball_items_shorten_target_witness :
  fst (for_each [5; 6]
         (fun task_id targetdir =>
            transfer_item (PyStr "181205") "/tmp/" false 35 task_id targetdir)
         "/data/x/" (always 0) [])
  = Ok (Nat.iter (List.length [5; 6]) (drop_last 1) "/data/x/").
Proof.
  apply (tarball_items_shorten_target (PyStr "181205") 181205 35 "/tmp/" [5; 6]);
    [reflexivity | lia | intros task_id [<- | [<- | []]]; lia].
Defined.

Lemma no_tasks_no_transfer {S} (beams : list Z) :
  forall (s : S) world trace,
  for_each beams (fun _ s => ret s) s world trace = (Ok s, trace).
Proof.
  induction beams as [|beam_nr rest IH]; intros s world trace; [reflexivity|].
  cbn [for_each]. unfold bind. cbn [ret]. apply IH.
Qed.

Lemma no_tasks_no_verification (beams : list Z) :
  forall world trace,
  for_each beams (fun _ (_ : unit) => ret tt) tt world trace = (Ok tt, trace).
Proof.
  induction beams as [|beam_nr rest IH]; intros world trace; [reflexivity|].
  cbn [for_each]. unfold bind. cbn [ret]. apply IH.
Qed.

(** X12: with no task id (as for the range 10-9, which parses to the
    empty list) nothing is probed and nothing is fetched, whatever the
    beams: the run only sweeps the restart files and, when it is to
    verify, asks for the host name. *)
Theorem no_task_ids_only_sweeps
    (date : pyval) (task_ids beams : ints) (targetdir tmpdir : string)
    (alta_exception check_with_rsync : bool) (world : env) (trace : list action) :
  as_list task_ids = [] ->
  getdata_alta date task_ids beams targetdir tmpdir alta_exception check_with_rsync
    world trace
  = match world trace (sweep (with_slash tmpdir)) with
    | Failed e => (Raise e, (trace ++ [sweep (with_slash tmpdir)])%list)
    | Returned _ _ =>
        if check_with_rsync then
          (match world (trace ++ [sweep (with_slash tmpdir)])%list (Popen "hostname") with
           | Failed e => Raise e
           | Returned _ _ => Ok tt
           end,
           (trace ++ [sweep (with_slash tmpdir); Popen "hostname"])%list)
        else (Ok tt, (trace ++ [sweep (with_slash tmpdir)])%list)
    end.
Proof.
  intros Ht. expose_dirs. rewrite Ht. cbn [for_each]. unfold bind at 1.
  rewrite (no_tasks_no_transfer (S := string)).
  unfold os_system, bind at 1 2, perform. fold (sweep (with_slash tmpdir)).
  destruct (world trace (sweep (with_slash tmpdir))) as [s o | e]; [|reflexivity].
  cbn [ret]. destruct check_with_rsync; [|reflexivity].
  unfold bind at 1. rewrite no_tasks_no_verification.
  unfold os_popen_read, bind, perform.
  destruct (world _ (Popen "hostname")) as [s' o' | e];
    rewrite <- List.app_assoc; reflexivity.
Qed.

Lemma no_task_ids_only_sweeps_witness :
  parse_list "10-9" = Ok []
  /\ getdata_alta (PyStr "180321") (Many []) (Many [0; 1]) "." "." false true (always 0) []
     = (Ok tt, [System "rm -rf ./*irods-status"; Popen "hostname"]).
Proof.
  split; [reflexivity|].
  apply (no_task_ids_only_sweeps (PyStr "180321") (Many []) (Many [0; 1]) "." "."
           false true (always 0) []).
  reflexivity.
Defined.

(** X13: the two directory arguments count only through their form with
    a slash at the end: two calls whose directories agree in that form
    ("/data" and "/data/", the empty text and ".") are one and the same
    run. *)
Theorem directories_count_up_to_final_slash
    (date : pyval) (task_ids beams : ints) (targetdir targetdir' tmpdir tmpdir' : string)
    (alta_exception check_with_rsync : bool) (world : env) (trace : list action) :
  with_slash targetdir = with_slash targetdir' ->
  with_slash tmpdir = with_slash tmpdir' ->
  getdata_alta date task_ids beams targetdir tmpdir alta_exception check_with_rsync
    world trace
  = getdata_alta date task_ids beams targetdir' tmpdir' alta_exception check_with_rsync
      world trace.
Proof. intros Ht Hm. expose_dirs. rewrite Ht, Hm. reflexivity. Qed.

Lemma directories_count_up_to_final_slash_witness :
  getdata_alta (PyStr "180321") (One 4) (One 0) "/data" EmptyString false true (always 0) []
  = getdata_alta (PyStr "180321") (One 4) (One 0) "/data/" "." false true (always 0) [].
Proof.
  apply (directories_count_up_to_final_slash (PyStr "180321") (One 4) (One 0)
           "/data" "/data/" EmptyString "." false true (always 0) []); reflexivity.
Defined.

Lemma with_slash_ends dir : last_chars 1 (with_slash dir) = "/".
Proof.
  unfold with_slash. cbv zeta.
  destruct (String.eqb_spec (last_chars 1 (if is_empty dir then "." else dir)) "/") as [E|_];
    [exact E | apply last_chars_append; reflexivity].
Qed.

Lemma with_slash_not_dot dir : String.eqb (with_slash dir) "." = false.
Proof.
  apply String.eqb_neq. intros E. pose proof (with_slash_ends dir) as H.
  rewrite E in H. discriminate.
Qed.

Section Verification.

Variables (date : pyval) (n : Z) (alta_exception : bool) (world : env).
Hypothesis date_is : int_of date = Ok n.
Hypothesis online : n < 181003 \/ alta_exception = true.
Hypothesis listings : forall trace argv, exists s o, world trace (Call argv) = Returned s o.
Hypothesis fetches : forall trace cmd, exists o, world trace (CheckCall cmd) = Returned 0 o.
Hypothesis counts : forall trace cmd,
  exists s o field fields,
    world trace (Popen cmd) = Returned s o /\ split_ws o = field :: fields.

Lemma verify_item_directory tmpdir targetdir beam_nr task_id trace :
  String.eqb targetdir "." = false ->
  verify_item date tmpdir targetdir alta_exception beam_nr task_id world trace
  = (Ok tt, (trace ++ verified_item date n tmpdir targetdir beam_nr task_id)%list).
Proof.
  intros Hdot. unfold verify_item, bind at 1.
  destruct (listings trace (split_ws ("ils " ++ stage_path date task_id beam_nr)))
    as (s & o & Hw).
  rewrite (get_alta_dir_online date n alta_exception date_is online _ _ _ _ _ _ Hw), Hdot.
  fold (irsync_cmd tmpdir date task_id (online_path date n task_id beam_nr) targetdir).
  unfold subprocess_check_call, bind, perform.
  destruct (fetches (trace ++ [stage_probe date task_id beam_nr])%list
              (irsync_cmd tmpdir date task_id (online_path date n task_id beam_nr) targetdir))
    as (o' & Hc).
  rewrite Hc. cbn [fst Z.eqb ret]. unfold verified_item.
  rewrite <- List.app_assoc. reflexivity.
Qed.

Lemma verify_tasks tmpdir targetdir beam_nr task_ids : forall trace,
  String.eqb targetdir "." = false ->
  for_each task_ids
    (fun task_id (_ : unit) =>
       verify_item date tmpdir targetdir alta_exception beam_nr task_id) tt world trace
  = (Ok tt,
     (trace ++ flat_map (verified_item date n tmpdir targetdir beam_nr) task_ids)%list).
Proof.
  intros trace Hdot. revert trace.
  induction task_ids as [|task_id rest IH]; intros trace.
  - cbn. rewrite app_nil_r. reflexivity.
  - cbn [for_each flat_map]. unfold bind at 1.
    rewrite verify_item_directory by assumption. rewrite IH, <- List.app_assoc. reflexivity.
Qed.

Lemma verify_beams tmpdir targetdir task_ids beams : forall trace,
  String.eqb targetdir "." = false ->
  for_each beams
    (fun beam_nr (_ : unit) =>
       for_each task_ids
         (fun task_id (_ : unit) =>
            verify_item date tmpdir targetdir alta_exception beam_nr task_id) tt)
    tt world trace
  = (Ok tt,
     (trace ++ flat_map (fun beam_nr =>
                 flat_map (verified_item date n tmpdir targetdir beam_nr) task_ids)
                beams)%list).
Proof.
  intros trace Hdot. revert trace.
  induction beams as [|beam_nr rest IH]; intros trace.
  - cbn. rewrite app_nil_r. reflexivity.
  - cbn [for_each flat_map]. unfold bind at 1.
    rewrite verify_tasks by assumption. rewrite IH, <- List.app_assoc. reflexivity.
Qed.

Lemma count_tasks tmpdir task_ids : forall trace,
  for_each task_ids
    (fun task_id (_ : unit) => count_failed date tmpdir task_id ;;; ret tt) tt world trace
  = (Ok tt, (trace ++ map (count_action date tmpdir) task_ids)%list).
Proof.
  induction task_ids as [|task_id rest IH]; intros trace.
  - cbn. rewrite app_nil_r. reflexivity.
  - cbn [for_each map]. unfold bind at 1 2, count_failed, os_popen_read, bind, perform.
    fold (count_action date tmpdir task_id).
    destruct (counts trace
                ("grep N " ++ tmpdir ++ "transfer_WSRTA" ++ str_of date
                 ++ format_0d 3 task_id ++ "_to_alta_verify.log | wc -l"))
      as (s & o & field & fields & Hp & Hf).
    unfold count_action at 1. rewrite Hp. cbn [ret snd]. rewrite Hf.
    cbn [ret]. rewrite IH, <- List.app_assoc. reflexivity.
Qed.

End Verification.

(** X15: with verification on, in a run of directory items with an
    obliging environment, the transfer and the sweep are followed by a
    second resolution of every item (one more probe each) and an
    [irsync] of it against the target directory itself, in the same
    beam-major order, then by the host name query and one count of
    failed files per task id, whatever the number of beams. *)
Theorem verified_directory_run
    (date : pyval) (n : Z) (alta_exception : bool) (task_ids beams : ints)
    (targetdir tmpdir : string) (world : env) (trace : list action) :
  int_of date = Ok n ->
  n < 181003 \/ alta_exception = true ->
  (forall trace argv, exists s o, world trace (Call argv) = Returned s o) ->
  (forall trace cmd, exists o, world trace (CheckCall cmd) = Returned 0 o) ->
  (forall trace cmd, exists s o, world trace (System cmd) = Returned s o) ->
  (forall trace cmd, exists s o field fields,
      world trace (Popen cmd) = Returned s o /\ split_ws o = field :: fields) ->
  getdata_alta date task_ids beams targetdir tmpdir alta_exception true world trace
  = (Ok tt,
     (trace
      ++ flat_map (fun beam_nr =>
           flat_map (directory_item date n (with_slash tmpdir) (with_slash targetdir) beam_nr)
             (as_list task_ids))
           (as_list beams)
      ++ [sweep (with_slash tmpdir)]
      ++ flat_map (fun beam_nr =>
           flat_map (verified_item date n (with_slash tmpdir) (with_slash targetdir) beam_nr)
             (as_list task_ids))
           (as_list beams)
      ++ [Popen "hostname"]
      ++ map (count_action date (with_slash tmpdir)) (as_list task_ids))%list).
Proof.
  intros Hd Hon Hcall Hcheck Hsys Hpopen. expose_dirs. unfold bind at 1.
  rewrite (directory_beams date n alta_exception Hd Hon world Hcall Hcheck).
  unfold os_system, bind at 1 2, perform. fold (sweep (with_slash tmpdir)).
  match goal with
  | |- context [world ?t (sweep (with_slash tmpdir))] =>
      destruct (Hsys t ("rm -rf " ++ with_slash tmpdir ++ "*irods-status")) as (s & o & E);
      unfold sweep at 1; rewrite E
  end.
  cbn [ret]. unfold bind at 1.
  rewrite (verify_beams date n alta_exception world Hd Hon Hcall Hcheck)
    by apply with_slash_not_dot.
  unfold bind at 1, os_popen_read, bind at 1, perform.
  match goal with
  | |- context [world ?t (Popen "hostname")] =>
      destruct (Hpopen t "hostname") as (s' & o' & _ & _ & E' & _); rewrite E'
  end.
  cbn [ret]. rewrite (count_tasks date world Hpopen).
  rewrite <- !List.app_assoc. reflexivity.
Qed.

Lemma verified_directory_run_witness :
  getdata_alta (PyStr "180321") (Many [4; 5]) (One 0) "/data" "/tmp" false true (always 0) []
  = (Ok tt,
     ([]
      ++ flat_map (fun beam_nr =>
           flat_map (directory_item (PyStr "180321") 180321 (with_slash "/tmp")
                       (with_slash "/data") beam_nr)
             (as_list (Many [4; 5])))
           (as_list (One 0))
      ++ [sweep (with_slash "/tmp")]
      ++ flat_map (fun beam_nr =>
           flat_map (verified_item (PyStr "180321") 180321 (with_slash "/tmp")
                       (with_slash "/data") beam_nr)
             (as_list (Many [4; 5])))
           (as_list (One 0))
      ++ [Popen "hostname"]
      ++ map (count_action (PyStr "180321") (with_slash "/tmp")) (as_list (Many [4; 5])))%list).
Proof.
  apply (verified_directory_run (PyStr "180321") 180321 false (Many [4; 5]) (One 0)
           "/data" "/tmp" (always 0) []);
    [reflexivity | left; lia
     | intros tr a; exists 0, "0"; reflexivity
     | intros tr a; exists "0"; reflexivity
     | intros tr a; exists 0, "0"; reflexivity
     | intros tr a; exists 0, "0", "0", []; split; reflexivity].
Defined.

(** At a key of rule 5 with every call succeeding, the staged tarball
    is what [get_alta_dir] returns. *)
Lemma get_alta_dir_staged date n task_id beam_nr trace :
  plain_date date = Some n -> 181003 <= n -> 0 <= task_id ->
  ~ (n = 190326 /\ task_id = 1) ->
  get_alta_dir date task_id beam_nr false (always 0) trace
  = (Ok (stage_path date task_id beam_nr),
     (trace ++ [stage_probe date task_id beam_nr])%list).
Proof.
  intros Hd Hn Ht Hkey.
  rewrite (surjective_pairing (get_alta_dir date task_id beam_nr false (always 0) trace)).
  rewrite (past_exception_key_run date n task_id beam_nr (always 0) trace 0 "0"
             Hd Hn Ht Hkey eq_refl).
  rewrite get_alta_dir_run. reflexivity.
Qed.

(** X16: run as the command line runs it, with ["."] for both
    directories and verification on, a staged dataset is fetched to
    [..tar], unpacked by a [tar] whose [-C] directory is empty, its
    directory renamed onto ["."]; and the verification then compares the
    archive with the unformatted text of line 197, braces and all. *)
Theorem staged_item_with_default_directories
    (date : pyval) (n task_id beam_nr : Z) (trace : list action) :
  plain_date date = Some n ->
  181003 <= n ->
  0 <= task_id ->
  ~ (n = 190326 /\ task_id = 1) ->
  getdata_alta date (One task_id) (One beam_nr) "." "." false true (always 0) trace
  = (Ok tt,
     (trace ++
      [stage_probe date task_id beam_nr;
       CheckCall (iget_cmd "./" date task_id beam_nr (stage_path date task_id beam_nr) "..tar");
       System "tar -xf ..tar -C ";
       Print EmptyString;
       Print (dataset_name date task_id beam_nr ++ ".MS");
       Rename (dataset_name date task_id beam_nr ++ ".MS") ".";
       Remove "..tar";
       sweep "./";
       stage_probe date task_id beam_nr;
       CheckCall (irsync_cmd "./" date task_id (stage_path date task_id beam_nr)
                    "{targetdir}WSRTA{date}{task_id:03d}_B{beam_nr:03d}.MS");
       Popen "hostname";
       count_action date "./" task_id])%list).
Proof.
  intros Hd Hn Ht Hkey. expose_dirs.
  change (with_slash ".") with "./". cbn [as_list for_each].
  unfold bind at 1 2 3.
  rewrite (transfer_item_tarball date n task_id beam_nr "./" "./" trace Hd Hn Ht Hkey).
  cbv zeta. change (drop_last 1 "./") with ".". change (fst (path_split ".")) with EmptyString.
  cbn [ret].
  unfold os_system, bind at 1 2, perform, always. cbn [ret fst].
  unfold bind at 1 2 3, verify_item, bind at 1.
  rewrite (get_alta_dir_staged date n task_id beam_nr _ Hd Hn Ht Hkey).
  unfold subprocess_check_call, os_popen_read, count_failed, os_popen_read, bind, perform,
    always.
  cbn [fst snd ret Z.eqb String.eqb Ascii.eqb Bool.eqb split_ws ws_fields is_space is_empty].
  rewrite <- !List.app_assoc. reflexivity.
Qed.

Lemma staged_item_with_default_directories_witness :
  file_operations
    (snd (getdata_alta (PyStr "181205") (One 5) (One 35) "." "." false true (always 0) []))
  = [Rename "WSRTA181205005_B035.MS" "."; Remove "..tar"].
Proof.
  rewrite (staged_item_with_default_directories (PyStr "181205") 181205 5 35 []);
    [reflexivity | reflexivity | lia | lia | lia].
Defined.

Lemma stage_probe_argv_witness :
  stage_probe (PyStr "181205") (-5) 35
  = Call ["ils"; stage_path (PyStr "181205") (-5) 35].
Proof. apply (stage_probe_argv (PyStr "181205") (-5) 35). reflexivity. Defined.

End TransferRuns.
